(** * flowgo-server: the parcel, rider and payment routes

    A shallow embedding of the Express route handlers of the server
    (the file with the Firebase middleware and the rider, payment and user
    routes, and [src/index.js], whose [POST /parcels] is the same handler),
    over an explicit model of the four MongoDB collections.

    - JavaScript values that reach a handler are [value]s; a document (a
      request body, a query string, a stored record) is a finite map from
      field names to values.
    - A handler is a computation in the monad [M]: it threads the [world]
      (the collections, the id generator, the clock and the log of database
      round trips) and may throw, as the JavaScript does.
    - What the repository does not contain is taken as it is documented:
      the BSON ObjectId constructor and the driver's [insertOne], [updateOne],
      [findOne] and [find]; the Firebase token check and the server's regular
      expression engine are parameters of the routes that use them.
    - The database calls themselves do not fail here, except [insertOne] on a
      duplicate [_id]; the handlers' [catch] branches are reached by the
      exceptions that the handlers themselves can raise. *)

From Stdlib Require Import ZArith NArith String Ascii List Lia.
From stdpp Require Import base option gmap strings list fin_maps sorting.

(** ** JavaScript values and documents *)

(** Numbers are JSON integers (the handlers only test them for truthiness and
    store them); a nested array or object is kept as its JSON text, since no
    handler looks inside one.  The driver does, in two places, noted at
    [ObjectId_new] and at [field_is]; where that matters, a property is
    stated for values that are not arrays or objects. *)
Inductive value : Type :=
  | VUndefined
  | VNull
  | VBool (b : bool)
  | VNum (n : Z)
  | VStr (s : string)
  | VDate (ms : Z)
  | VOid (o : N)
  | VJson (text : string).

#[global] Instance value_eq_dec : EqDecision value.
Proof. solve_decision. Defined.

Abbreviation doc := (gmap string value).

(** [d.k] *)
Definition get (d : doc) (k : string) : value := default VUndefined (d !! k).

(** [!!v] : false for undefined, null, false, 0 and the empty string. *)
Definition truthy (v : value) : bool :=
  match v with
  | VUndefined | VNull => false
  | VBool b => b
  | VNum n => negb (n =? 0)%Z
  | VStr s => negb (String.eqb s "")
  | VDate _ | VOid _ | VJson _ => true
  end.

(** [a === b] : primitives by value, objects by reference (a freshly parsed
    or freshly built object is identical to no other value). *)
Definition strict_eq (a b : value) : bool :=
  match a, b with
  | VUndefined, VUndefined => true
  | VNull, VNull => true
  | VBool x, VBool y => Bool.eqb x y
  | VNum x, VNum y => (x =? y)%Z
  | VStr x, VStr y => String.eqb x y
  | _, _ => false
  end.

(** [arr.includes(v)] for an array of strings. *)
Definition includes (arr : list string) (v : value) : bool :=
  existsb (fun s => strict_eq (VStr s) v) arr.

(** The driver serialises [undefined] as BSON null (ignoreUndefined is off). *)
Definition bson (v : value) : value :=
  match v with VUndefined => VNull | _ => v end.

(** ** The world: collections, id generator, clock, log *)

Inductive coll : Type := Users | Parcels | Payments | Riders.

Inductive event : Type :=
  | DbFindOne (c : coll)
  | DbFind (c : coll)
  | DbInsertOne (c : coll)
  | DbUpdateOne (c : coll).

Record world : Type := World {
  usersCollection : list doc;
  parcelCollection : list doc;
  paymentCollection : list doc;
  ridersCollection : list doc;
  next_oid : N;
  now : Z;
  log : list event
}.

Definition docs_of (c : coll) (w : world) : list doc :=
  match c with
  | Users => usersCollection w
  | Parcels => parcelCollection w
  | Payments => paymentCollection w
  | Riders => ridersCollection w
  end.

Definition set_docs (c : coll) (l : list doc) (w : world) : world :=
  match c with
  | Users => World l (parcelCollection w) (paymentCollection w) (ridersCollection w) (next_oid w) (now w) (log w)
  | Parcels => World (usersCollection w) l (paymentCollection w) (ridersCollection w) (next_oid w) (now w) (log w)
  | Payments => World (usersCollection w) (parcelCollection w) l (ridersCollection w) (next_oid w) (now w) (log w)
  | Riders => World (usersCollection w) (parcelCollection w) (paymentCollection w) l (next_oid w) (now w) (log w)
  end.

Definition add_log (e : event) (w : world) : world :=
  World (usersCollection w) (parcelCollection w) (paymentCollection w) (ridersCollection w)
        (next_oid w) (now w) (log w ++ [e]).

Definition bump_oid (w : world) : world :=
  World (usersCollection w) (parcelCollection w) (paymentCollection w) (ridersCollection w)
        (N.succ (next_oid w)) (now w) (log w).

(** ** The monad of handlers: state and exceptions *)

Inductive exn : Type := BSONError | DuplicateKey | TypeError | MongoServerError.

Inductive res (A : Type) : Type :=
  | Ok (a : A)
  | Throw (e : exn).
Arguments Ok {A} a.
Arguments Throw {A} e.

Definition M (A : Type) : Type := world -> res A * world.

#[global] Instance M_ret : MRet M := fun A a w => (Ok a, w).
#[global] Instance M_bind : MBind M := fun A B k m w =>
  match m w with
  | (Ok a, w') => k a w'
  | (Throw e, w') => (Throw e, w')
  end.

Definition throw {A} (e : exn) : M A := fun w => (Throw e, w).

(** The value of a computation that did not throw. *)
Definition res_value {A} (r : res A) : option A :=
  match r with
  | Ok a => Some a
  | Throw _ => None
  end.

(** [try { m } catch (error) { h }] *)
Definition try_catch {A} (m : M A) (h : exn -> M A) : M A :=
  fun w => match m w with
           | (Ok a, w') => (Ok a, w')
           | (Throw e, w') => h e w'
           end.

Definition record (e : event) : M unit := fun w => (Ok tt, add_log e w).
Definition read (c : coll) : M (list doc) := fun w => (Ok (docs_of c w), w).
Definition write (c : coll) (l : list doc) : M unit := fun w => (Ok tt, set_docs c l w).
(** [new Date()] *)
Definition Date_new : M value := fun w => (Ok (VDate (now w)), w).
Definition fresh_oid : M value := fun w => (Ok (VOid (next_oid w)), bump_oid w).

(** ** ObjectId *)

Definition hex_digit (c : ascii) : option N :=
  let n := N_of_ascii c in
  if (48 <=? n)%N && (n <=? 57)%N then Some (n - 48)%N
  else if (97 <=? n)%N && (n <=? 102)%N then Some (n - 87)%N
  else if (65 <=? n)%N && (n <=? 70)%N then Some (n - 55)%N
  else None.

Fixpoint hex_value (acc : N) (s : string) : option N :=
  match s with
  | EmptyString => Some acc
  | String c s' =>
      match hex_digit c with
      | Some d => hex_value (16 * acc + d)%N s'
      | None => None
      end
  end.

(** [new ObjectId(v)]: a string of 24 hexadecimal digits names an id, nothing
    or a number makes the constructor generate one, an ObjectId is copied, and
    any other string, a boolean or a date makes it throw.  An object makes it
    throw unless it has an id field of its own, which the constructor then
    reads in place of the object; objects being kept as text, that reading is
    not modelled, and where it matters a property takes an id that is text. *)
Definition ObjectId_new (v : value) : M value :=
  match v with
  | VStr s =>
      if (String.length s =? 24)%nat then
        match hex_value 0 s with
        | Some o => mret (VOid o)
        | None => throw BSONError
        end
      else throw BSONError
  | VOid o => mret (VOid o)
  | VUndefined | VNull | VNum _ => fresh_oid
  | VBool _ | VDate _ | VJson _ => throw BSONError
  end.

(** ** The driver's collection operations *)

(** A query [{ k: v }] for a [v] that is not an object: the field equals [v];
    a null or undefined [v] matches a null field and a document that lacks the
    field.  The server reads an object [v] as query operators, and matches a
    field that holds an array by its elements; arrays and objects being kept
    as text, neither is modelled: a [VJson] is compared as a whole.  Where a
    property depends on the difference, it takes a filter value and stored
    fields that are not arrays or objects. *)
Definition field_is (k : string) (v : value) (d : doc) : bool :=
  match bson v with
  | VNull => bool_decide (bson (get d k) = VNull)
  | v' => bool_decide (d !! k = Some v')
  end.

Definition first_match (p : doc -> bool) (l : list doc) : option (nat * doc) :=
  list_find (fun d => p d = true) l.

Definition has_id (i : value) (l : list doc) : bool :=
  existsb (field_is "_id" i) l.

(** [insertOne(d)] returns [insertedId]. *)
Definition insertOne (c : coll) (d : doc) : M value :=
  record (DbInsertOne c) ;;
  l ← read c;
  match get d "_id" with
  | VUndefined | VNull =>
      i ← fresh_oid;
      write c (l ++ [<["_id" := i]> (bson <$> d)]) ;;
      mret i
  | i =>
      if has_id i l then throw DuplicateKey
      else write c (l ++ [bson <$> d]) ;; mret i
  end.

Record UpdateResult : Type := { matchedCount : nat; modifiedCount : nat }.

(** [{ $set: upd }] applied to a document. *)
Definition set_fields (upd d : doc) : doc := (bson <$> upd) ∪ d.

(** [updateOne(filter, { $set: upd })] *)
Definition updateOne (c : coll) (p : doc -> bool) (upd : doc) : M UpdateResult :=
  record (DbUpdateOne c) ;;
  l ← read c;
  match first_match p l with
  | None => mret {| matchedCount := 0; modifiedCount := 0 |}
  | Some (i, d) =>
      if decide (set_fields upd d = d)
      then mret {| matchedCount := 1; modifiedCount := 0 |}
      else write c (<[i := set_fields upd d]> l) ;;
           mret {| matchedCount := 1; modifiedCount := 1 |}
  end.

Definition findOne (c : coll) (p : doc -> bool) : M (option doc) :=
  record (DbFindOne c) ;;
  l ← read c;
  mret (snd <$> first_match p l).

(** The BSON comparison order used by [sort]: null, numbers, strings,
    objects, ObjectIds, booleans, dates; a missing field sorts as null. *)
Definition bson_rank (v : value) : nat :=
  match v with
  | VUndefined | VNull => 1
  | VNum _ => 2
  | VStr _ => 3
  | VJson _ => 4
  | VOid _ => 7
  | VBool _ => 8
  | VDate _ => 9
  end.

Definition bson_le (a b : value) : bool :=
  if (bson_rank a <? bson_rank b)%nat then true
  else if (bson_rank b <? bson_rank a)%nat then false
  else match a, b with
       | VNum x, VNum y => (x <=? y)%Z
       | VStr x, VStr y => String.leb x y
       | VOid x, VOid y => (x <=? y)%N
       | VBool x, VBool y => implb x y
       | VDate x, VDate y => (x <=? y)%Z
       | _, _ => true
       end.

(** [d1] may come before [d2] under [.sort({ k: -1 })]. *)
Definition desc_by (k : string) (d1 d2 : doc) : Prop :=
  bson_le (get d2 k) (get d1 k) = true.

#[global] Instance desc_by_dec k d1 d2 : Decision (desc_by k d1 d2).
Proof. unfold desc_by. apply _. Defined.

Definition sort_desc (k : string) (l : list doc) : list doc :=
  merge_sort (desc_by k) l.

Definition limit (n : nat) (l : list doc) : list doc := take n l.

(** [find(filter)] followed by the cursor modifiers [post] and [toArray()]. *)
Definition find (c : coll) (p : doc -> bool) (post : list doc -> list doc) : M (list doc) :=
  record (DbFind c) ;;
  l ← read c;
  mret (post (List.filter p l)).

(** ** Requests and responses *)

Record request : Type := Request {
  authorization : option string;
  params : gmap string string;
  query : doc;
  body : doc;
  decoded : option doc
}.

(** [req.params.k] *)
Definition param (req : request) (k : string) : value :=
  from_option VStr VUndefined (params req !! k).

Inductive json : Type :=
  | JVal (v : value)
  | JTpl (before : string) (v : value) (after : string)
  | JDoc (d : doc)
  | JDocs (l : list doc).

Inductive sent_body : Type :=
  | RObj (fields : list (string * json))
  | RDoc (d : doc)
  | RDocs (l : list doc).

Record response : Type := Response { status : nat; sent : sent_body }.

(** [res.send(b)] and [res.status(n).send(b)] *)
Definition send (b : sent_body) : response := Response 200 b.
Definition status_send (n : nat) (b : sent_body) : response := Response n b.

Definition success_message (ok : bool) (msg : string) : sent_body :=
  RObj [("success", JVal (VBool ok)); ("message", JVal (VStr msg))].
Definition message_only (msg : string) : sent_body :=
  RObj [("message", JVal (VStr msg))].

(** The field [k] of the object that was sent. *)
Definition field (k : string) (r : response) : option json :=
  match sent r with
  | RObj fields => snd <$> List.find (fun kv => String.eqb (fst kv) k) fields
  | RDoc d => JVal <$> d !! k
  | RDocs _ => None
  end.

Definition count (n : nat) : value := VNum (Z.of_nat n).

(** ** Middleware *)

(** [s.split(" ")] *)
Fixpoint split_space (s : string) : list string :=
  match s with
  | EmptyString => [EmptyString]
  | String c s' =>
      if Ascii.eqb c " "%char then EmptyString :: split_space s'
      else match split_space s' with
           | [] => [String c EmptyString]
           | t :: ts => String c t :: ts
           end
  end.

Definition handler : Type := request -> M response.

Section Middleware.
(** [admin.auth().verifyIdToken(token)]: the decoded claims, or nothing when
    the identity provider rejects the token. *)
Variable verifyIdToken : string -> option doc.

Definition verifyFBToken (next : handler) : handler := fun req =>
  match authorization req with
  | None => mret (status_send 404 (message_only "Unauthorized access"))
  | Some authHeader =>
      if negb (truthy (VStr authHeader))
      then mret (status_send 404 (message_only "Unauthorized access"))
      else
        match split_space authHeader !! 1%nat with
        | None => mret (status_send 404 (message_only "Unauthorized access"))
        | Some token =>
            if negb (truthy (VStr token))
            then mret (status_send 404 (message_only "Unauthorized access"))
            else match verifyIdToken token with
                 | Some d =>
                     next (Request (authorization req) (params req) (query req)
                                   (body req) (Some d))
                 | None => mret (status_send 403 (message_only "Forbidden access"))
                 end
        end
  end.
End Middleware.

(** [req.decoded.email]; reading a property of undefined throws. *)
Definition decoded_email (req : request) : M value :=
  match decoded req with
  | Some d => mret (get d "email")
  | None => throw TypeError
  end.

Definition verifyAdmin (next : handler) : handler := fun req =>
  email ← decoded_email req;
  user ← findOne Users (field_is "email" email);
  match user with
  | None => mret (status_send 403 (message_only "Forbidden access"))
  | Some u =>
      if negb (strict_eq (get u "role") (VStr "admin"))
      then mret (status_send 403 (message_only "Forbidden access"))
      else next req
  end.

(** ** Route handlers *)

Definition j_true : json := JVal (VBool true).

(** [POST /parcels] (the same handler in both source files) *)
Definition post_parcels : handler := fun req =>
  let parcelData := body req in
  if negb (truthy (get parcelData "name")) || negb (truthy (get parcelData "type"))
     || negb (truthy (get parcelData "senderRegion"))
     || negb (truthy (get parcelData "receiverRegion"))
  then mret (status_send 400 (success_message false "Missing required fields"))
  else
    try_catch
      (result ← insertOne Parcels parcelData;
       mret (status_send 201 (RObj [("success", j_true);
                                    ("message", JVal (VStr "Parcel added successfully!"));
                                    ("insertedId", JVal result)])))
      (fun _ => mret (status_send 500 (success_message false "Failed to add parcel"))).

(** [POST /riders]: no validation, no try. *)
Definition post_riders : handler := fun req =>
  let riderData := body req in
  result ← insertOne Riders riderData;
  mret (send (RObj [("acknowledged", j_true); ("insertedId", JVal result)])).

(** [POST /payments] *)
Definition post_payments : handler := fun req =>
  try_catch
    (let email := get (body req) "email" in
     let transactionId := get (body req) "transactionId" in
     let amount := get (body req) "amount" in
     let parcelId := get (body req) "parcelId" in
     let paymentMethod := get (body req) "paymentMethod" in
     if negb (truthy email) || negb (truthy transactionId) || negb (truthy amount)
     then mret (status_send 400 (success_message false "Missing payment fields"))
     else
       date ← Date_new;
       let paymentData : doc :=
         list_to_map [("email", email); ("parcelId", parcelId); ("amount", amount);
                      ("transactionId", transactionId); ("paymentMethod", paymentMethod);
                      ("payment_status", VStr "paid"); ("date", date)] in
       paymentResult ← insertOne Payments paymentData;
       oid ← ObjectId_new parcelId;
       parcelResult ← updateOne Parcels (field_is "_id" oid)
                        (list_to_map [("payment_status", VStr "paid")]);
       mret (send (RObj [("success", j_true);
                         ("message", JVal (VStr "Payment saved and parcel updated successfully"));
                         ("paymentId", JVal paymentResult);
                         ("parcelModifiedCount", JVal (count (modifiedCount parcelResult)))])))
    (fun _ => mret (status_send 500 (success_message false "Failed to process payment"))).

(** [GET /riders/pending] and [GET /riders/active] *)
Definition get_riders_with_status (st failure : string) : handler := fun req =>
  try_catch
    (riders ← find Riders (field_is "status" (VStr st)) (sort_desc "submittedAt");
     mret (send (RDocs riders)))
    (fun _ => mret (status_send 500 (success_message false failure))).

Definition get_riders_pending : handler :=
  get_riders_with_status "pending" "Failed to fetch pending riders".
Definition get_riders_active : handler :=
  get_riders_with_status "active" "Failed to fetch active riders".

Definition validStatus : list string := ["pending"; "active"; "rejected"].

(** [PATCH /riders/:id] *)
Definition patch_riders_id : handler := fun req =>
  let id := param req "id" in
  let status := get (body req) "status" in
  let email := get (body req) "email" in
  if negb (truthy id) || negb (truthy status)
  then mret (status_send 400 (success_message false "Rider ID and status are required"))
  else if negb (includes validStatus status)
  then mret (status_send 400 (success_message false "Invalid status value"))
  else
    (if strict_eq status (VStr "active")
     then updateOne Users (field_is "email" email) (list_to_map [("role", VStr "rider")]) ;;
          mret tt
     else mret tt) ;;
    try_catch
      (oid ← ObjectId_new id;
       result ← updateOne Riders (field_is "_id" oid) (list_to_map [("status", status)]);
       if (modifiedCount result =? 0)%nat
       then mret (status_send 404 (success_message false "Rider not found or status unchanged"))
       else mret (send (RObj [("success", j_true);
                              ("message", JTpl "Rider status updated to " status "")])))
      (fun _ => mret (status_send 500 (success_message false "Internal server error"))).

(** [GET /riders/by-district] *)
Definition get_riders_by_district : handler := fun req =>
  try_catch
    (let district := get (query req) "district" in
     if negb (truthy district)
     then mret (status_send 400 (success_message false "District is required"))
     else
       riders ← find Riders
                  (fun d => field_is "status" (VStr "active") d && field_is "district" district d)
                  (sort_desc "submittedAt");
       mret (send (RObj [("success", j_true); ("count", JVal (count (length riders)));
                         ("riders", JDocs riders)])))
    (fun _ => mret (status_send 500
                      (success_message false "Failed to fetch active riders by district"))).

(** [PATCH /parcels/assign/:id] *)
Definition patch_parcels_assign_id : handler := fun req =>
  let parcelId := param req "id" in
  let riderId := get (body req) "riderId" in
  let riderName := get (body req) "riderName" in
  let riderContact := get (body req) "riderContact" in
  if negb (truthy parcelId) || negb (truthy riderId)
  then mret (status_send 400 (success_message false "Parcel ID and Rider ID are required"))
  else
    try_catch
      (assignedAt ← Date_new;
       let updateData : doc :=
         list_to_map [("delivery_status", VStr "in_transit"); ("assignedAt", assignedAt);
                      ("assignRider_id", riderId); ("assignRider_name", riderName);
                      ("riderContact", riderContact)] in
       oid ← ObjectId_new parcelId;
       result ← updateOne Parcels (field_is "_id" oid) updateData;
       if (modifiedCount result =? 0)%nat
       then mret (status_send 404 (success_message false "Parcel not found or already assigned"))
       else mret (send (RObj [("success", j_true);
                              ("message", JVal (VStr "Rider assigned successfully"));
                              ("updatedParcel", JDoc updateData)])))
      (fun _ => mret (status_send 500 (success_message false "Internal server error"))).

Section Search.
(** The database's regular expression engine: [regex_test pattern options
    subject] says whether [pattern] matches somewhere in [subject]. *)
Variable regex_test : string -> string -> string -> bool.

(** [{ k: { $regex: pattern, $options: options } }]: only string fields
    can match; a pattern that is not a string is refused by the server. *)
Definition field_regex (k : string) (pattern options : string) (d : doc) : bool :=
  match d !! k with
  | Some (VStr s) => regex_test pattern options s
  | _ => false
  end.

(** [GET /users/search] *)
Definition get_users_search : handler := fun req =>
  try_catch
    (let queryText := get (query req) "query" in
     if negb (truthy queryText)
     then mret (status_send 400 (success_message false "Search query is required"))
     else
       match queryText with
       | VStr pattern =>
           users ← find Users (field_regex "email" pattern "i") (limit 10);
           mret (send (RObj [("success", j_true); ("users", JDocs users)]))
       | _ => record (DbFind Users) ;; throw MongoServerError
       end)
    (fun _ => mret (status_send 500 (success_message false "Failed to search users"))).
End Search.

(** [PATCH /users/make-admin/:email] and [PATCH /users/remove-admin/:email] *)
Definition patch_users_role (role after notfound : string) : handler := fun req =>
  let email := param req "email" in
  if negb (truthy email)
  then mret (status_send 400 (success_message false "Email is required"))
  else
    try_catch
      (result ← updateOne Users (field_is "email" email) (list_to_map [("role", VStr role)]);
       if (modifiedCount result =? 0)%nat
       then mret (status_send 404 (success_message false notfound))
       else mret (send (RObj [("success", j_true); ("message", JTpl "" email after)])))
      (fun _ => mret (status_send 500 (success_message false "Failed to update user role"))).

Definition patch_users_make_admin : handler :=
  patch_users_role "admin" " is now an admin" "User not found or already admin".
Definition patch_users_remove_admin : handler :=
  patch_users_role "user" " is no longer an admin" "User not found or already not an admin".

(** [GET /users/role/:email] *)
Definition get_users_role_email : handler := fun req =>
  let email := param req "email" in
  if negb (truthy email)
  then mret (status_send 400 (success_message false "Email is required"))
  else
    try_catch
      (user ← findOne Users (field_is "email" email);
       match user with
       | None => mret (status_send 404 (success_message false "User not found"))
       | Some u => mret (send (RObj [("success", j_true); ("role", JVal (get u "role"))]))
       end)
      (fun _ => mret (status_send 500 (success_message false "Failed to fetch user role"))).

(** [GET /payments] (behind [verifyFBToken]) *)
Definition get_payments : handler := fun req =>
  try_catch
    (let userEmail := get (query req) "email" in
     caller ← decoded_email req;
     if negb (strict_eq caller userEmail)
     then mret (status_send 403 (message_only "Forbidden access"))
     else if negb (truthy userEmail)
     then mret (status_send 400 (success_message false "Email is required in query!"))
     else
       payments ← find Payments (field_is "email" userEmail) (sort_desc "date");
       mret (send (RDocs payments)))
    (fun _ => mret (status_send 500 (success_message false "Failed to fetch payments"))).

(** ** The routing table *)

Inductive route : Type :=
  | POST_parcels
  | POST_riders
  | POST_payments
  | GET_riders_pending
  | GET_riders_active
  | PATCH_riders_id
  | GET_riders_by_district
  | PATCH_parcels_assign_id
  | GET_users_search
  | PATCH_users_make_admin
  | PATCH_users_remove_admin
  | GET_users_role_email
  | GET_payments.

Section App.
Variable verifyIdToken : string -> option doc.
Variable regex_test : string -> string -> string -> bool.

Definition admin (h : handler) : handler :=
  verifyFBToken verifyIdToken (verifyAdmin h).

Definition app (r : route) : handler :=
  match r with
  | POST_parcels => post_parcels
  | POST_riders => post_riders
  | POST_payments => post_payments
  | GET_riders_pending => admin get_riders_pending
  | GET_riders_active => admin get_riders_active
  | PATCH_riders_id => admin patch_riders_id
  | GET_riders_by_district => admin get_riders_by_district
  | PATCH_parcels_assign_id => admin patch_parcels_assign_id
  | GET_users_search => admin (get_users_search regex_test)
  | PATCH_users_make_admin => admin patch_users_make_admin
  | PATCH_users_remove_admin => admin patch_users_remove_admin
  | GET_users_role_email => get_users_role_email
  | GET_payments => verifyFBToken verifyIdToken get_payments
  end.
End App.

(** The routes registered with [verifyFBToken, verifyAdmin]. *)
Definition admin_only (r : route) : bool :=
  match r with
  | GET_riders_pending | GET_riders_active | PATCH_riders_id | GET_riders_by_district
  | PATCH_parcels_assign_id | GET_users_search | PATCH_users_make_admin
  | PATCH_users_remove_admin => true
  | _ => false
  end.

(** ** Vocabulary of the statements *)

(** The request carries a credential that the identity provider accepts,
    with claims [d]. *)
Definition authenticated (verifyIdToken : string -> option doc)
    (req : request) (d : doc) : Prop :=
  ∃ authHeader token,
    authorization req = Some authHeader ∧
    split_space authHeader !! 1%nat = Some token ∧
    token ≠ "" ∧
    verifyIdToken token = Some d.

(** None of the four required fields of a parcel is falsy. *)
Definition required_present (b : doc) : bool :=
  truthy (get b "name") && truthy (get b "type")
  && truthy (get b "senderRegion") && truthy (get b "receiverRegion").

(** Case-insensitive occurrence of one text inside another. *)
Definition lower_ascii (c : ascii) : ascii :=
  let n := N_of_ascii c in
  if (65 <=? n)%N && (n <=? 90)%N then ascii_of_N (n + 32) else c.








(** An engine for the patterns built from literal characters and the wildcard
    [.] (any character but a line feed), with the option [i]; it is what the
    search is run with on concrete data below.  Other metacharacters are
    outside this fragment. *)
Definition dot_char (caseless : bool) (c d : ascii) : bool :=
  (Ascii.eqb c "." && negb (Ascii.eqb d "010"))
  || (if caseless then Ascii.eqb (lower_ascii c) (lower_ascii d) else Ascii.eqb c d).

Fixpoint dot_here (caseless : bool) (p s : string) : bool :=
  match p, s with
  | EmptyString, _ => true
  | String _ _, EmptyString => false
  | String c p', String d s' => dot_char caseless c d && dot_here caseless p' s'
  end.

Fixpoint dot_search (caseless : bool) (p s : string) : bool :=
  dot_here caseless p s ||
  match s with
  | EmptyString => false
  | String _ s' => dot_search caseless p s'
  end.

Definition dot_regex (pattern options subject : string) : bool :=
  dot_search (String.eqb options "i") pattern subject.

(** ** Concrete data *)

Module Sample.
Definition oid1 : string := "64b7f0c2a1d3e4f5a6b7c8d9".
Definition id1 : value := VOid 31170871365409138629861165273.

Definition empty : world := World [] [] [] [] 1 1700000000000 [].

Definition request_of (ps : list (string * string)) (q b : list (string * value)) : request :=
  Request None (list_to_map ps) (list_to_map q) (list_to_map b) None.

(** The identity provider knows two tokens. *)
Definition verifyIdToken (token : string) : option doc :=
  if String.eqb token "tok-admin" then Some (list_to_map [("email", VStr "root@x.com")])
  else if String.eqb token "tok-user" then Some (list_to_map [("email", VStr "u@x.com")])
  else None.

Definition with_token (t : string) (req : request) : request :=
  Request (Some ("Bearer " +:+ t)) (params req) (query req) (body req) None.

Definition user (e r : string) : doc :=
  list_to_map [("email", VStr e); ("role", VStr r)].

Definition rider (st : string) : doc :=
  list_to_map [("_id", id1); ("name", VStr "Rafi"); ("status", VStr st)].

Definition parcel_assigned : doc :=
  list_to_map [("_id", id1); ("name", VStr "Box"); ("delivery_status", VStr "in_transit");
               ("assignedAt", VDate 1600000000000); ("assignRider_id", VStr "r1");
               ("assignRider_name", VStr "Rafi"); ("riderContact", VStr "017")].

Definition payment (e : string) (t : Z) : doc :=
  list_to_map [("email", VStr e); ("amount", VNum 10); ("date", VDate t)].

Definition with_users (l : list doc) (w : world) : world := set_docs Users l w.
Definition with_riders (l : list doc) (w : world) : world := set_docs Riders l w.
Definition with_parcels (l : list doc) (w : world) : world := set_docs Parcels l w.
Definition with_payments (l : list doc) (w : world) : world := set_docs Payments l w.
End Sample.

(** ** The other routes *)

(** [POST /users] *)
Definition post_users : handler := fun req =>
  try_catch
    (let email := get (body req) "email" in
     let role := get (body req) "role" in
     let created_at := get (body req) "created_at" in
     let last_login := get (body req) "last_login" in
     if negb (truthy email)
     then mret (status_send 400 (success_message false "Email is required"))
     else
       existingUser ← findOne Users (field_is "email" email);
       match existingUser with
       | Some _ => mret (status_send 409 (success_message false "Email already exists"))
       | None =>
           let newUser : doc :=
             list_to_map [("email", email); ("role", role); ("created_at", created_at);
                          ("last_login", last_login)] in
           result ← insertOne Users newUser;
           mret (status_send 201 (RObj [("success", j_true);
                                        ("message", JVal (VStr "User inserted successfully"));
                                        ("insertedId", JVal result)]))
       end)
    (fun _ => mret (status_send 500 (success_message false "Internal server error"))).

(** [POST /users] with a truthy email, in the two parts that its first
    [await] separates: the lookup, and what the handler does once the lookup
    is answered.  Another request can be served between the two. *)
Definition post_users_lookup (req : request) : M (option doc) :=
  findOne Users (field_is "email" (get (body req) "email")).

Definition post_users_store (existingUser : option doc) : handler := fun req =>
  try_catch
    (let email := get (body req) "email" in
     let role := get (body req) "role" in
     let created_at := get (body req) "created_at" in
     let last_login := get (body req) "last_login" in
     match existingUser with
     | Some _ => mret (status_send 409 (success_message false "Email already exists"))
     | None =>
         let newUser : doc :=
           list_to_map [("email", email); ("role", role); ("created_at", created_at);
                        ("last_login", last_login)] in
         result ← insertOne Users newUser;
         mret (status_send 201 (RObj [("success", j_true);
                                      ("message", JVal (VStr "User inserted successfully"));
                                      ("insertedId", JVal result)]))
     end)
    (fun _ => mret (status_send 500 (success_message false "Internal server error"))).

(** Two registrations in flight together: both lookups are answered before
    either handler goes on to store. *)
Definition post_users_overlapped (req1 req2 : request) : M (response * response) :=
  existing1 ← post_users_lookup req1;
  existing2 ← post_users_lookup req2;
  resp1 ← post_users_store existing1 req1;
  resp2 ← post_users_store existing2 req2;
  mret (resp1, resp2).

Record DeleteResult : Type := { deletedCount : nat }.

(** [deleteOne(filter)]: the first document that matches is removed.  (The
    log keeps the reads, inserts and updates; a delete shows in the
    collection itself.) *)
Definition deleteOne (c : coll) (p : doc -> bool) : M DeleteResult :=
  l ← read c;
  match first_match p l with
  | None => mret {| deletedCount := 0 |}
  | Some (i, _) => write c (delete i l) ;; mret {| deletedCount := 1 |}
  end.

(** [GET /parcels/:id] (behind [verifyFBToken]) *)
Definition get_parcels_id : handler := fun req =>
  let id := param req "id" in
  if negb (truthy id)
  then mret (status_send 400 (success_message false "Parcel ID is required"))
  else
    try_catch
      (oid ← ObjectId_new id;
       parcel ← findOne Parcels (field_is "_id" oid);
       match parcel with
       | None => mret (status_send 404 (success_message false "Parcel not found"))
       | Some p => mret (send (RDoc p))
       end)
      (fun _ => mret (status_send 500 (success_message false "Failed to fetch parcel"))).

(** [DELETE /parcels/:id] (the same handler in both source files) *)
Definition delete_parcels_id : handler := fun req =>
  let id := param req "id" in
  if negb (truthy id)
  then mret (status_send 400 (success_message false "Parcel ID is required"))
  else
    try_catch
      (oid ← ObjectId_new id;
       result ← deleteOne Parcels (field_is "_id" oid);
       if (0 <? deletedCount result)%nat
       then mret (send (success_message true "Parcel deleted successfully"))
       else mret (status_send 404 (success_message false "Parcel not found")))
      (fun _ => mret (status_send 500 (success_message false "Failed to delete parcel"))).

(** A query object [{ k1: v1, k2: v2, ... }]: every condition holds. *)
Definition query_is (q : list (string * value)) (d : doc) : bool :=
  forallb (fun kv => field_is (fst kv) (snd kv) d) q.

(** [if (v) query.k = v] *)
Definition condition (k : string) (v : value) : list (string * value) :=
  if truthy v then [(k, v)] else [].

Section Listing.
(** [new Date(v)] as a time in milliseconds, nothing for an invalid date. *)
Variable Date_of : value -> option Z.
(** [arr.sort(compare)] of the JavaScript engine; a comparison that is not a
    number is [None]. *)
Variable Array_sort : (doc -> doc -> option Z) -> list doc -> list doc.

(** [(a, b) => new Date(b.creation_date) - new Date(a.creation_date)] *)
Definition by_creation_date (a b : doc) : option Z :=
  match Date_of (get b "creation_date"), Date_of (get a "creation_date") with
  | Some x, Some y => Some (x - y)%Z
  | _, _ => None
  end.

(** [GET /parcels] (behind [verifyFBToken]) *)
Definition get_parcels : handler := fun req =>
  let email := get (query req) "email" in
  let payment_status := get (query req) "payment_status" in
  let delivery_status := get (query req) "delivery_status" in
  let query := condition "user_email" email ++ condition "payment_status" payment_status
               ++ condition "delivery_status" delivery_status in
  try_catch
    (parcels ← find Parcels (query_is query) (sort_desc "creation_date");
     let sortedParcels := Array_sort by_creation_date parcels in
     mret (send (RObj [("success", j_true); ("count", JVal (count (length sortedParcels)));
                       ("parcels", JDocs sortedParcels)])))
    (fun _ => mret (status_send 500 (success_message false "Failed to fetch parcels"))).

(** [GET /parcels] of [src/index.js]: the email is required. *)
Definition index_get_parcels : handler := fun req =>
  let email := get (query req) "email" in
  if negb (truthy email)
  then mret (status_send 400 (success_message false "Email is required"))
  else
    try_catch
      (parcels ← find Parcels (field_is "user_email" email) (sort_desc "creation_date");
       let sortedParcels := Array_sort by_creation_date parcels in
       mret (send (RObj [("success", j_true); ("count", JVal (count (length sortedParcels)));
                         ("parcels", JDocs sortedParcels)])))
      (fun _ => mret (status_send 500 (success_message false "Failed to fetch parcels"))).
End Listing.

(** The whole routing table: the routes above and the four others (the
    Stripe intent and the greeting at [/] hold no state of their own). *)
Inductive endpoint : Type :=
  | Listed (r : route)
  | POST_users
  | GET_parcels
  | GET_parcels_id
  | DELETE_parcels_id.

Section Server.
Variable verifyIdToken : string -> option doc.
Variable regex_test : string -> string -> string -> bool.
Variable Date_of : value -> option Z.
Variable Array_sort : (doc -> doc -> option Z) -> list doc -> list doc.

Definition server (e : endpoint) : handler :=
  match e with
  | Listed r => app verifyIdToken regex_test r
  | POST_users => post_users
  | GET_parcels => verifyFBToken verifyIdToken (get_parcels Date_of Array_sort)
  | GET_parcels_id => verifyFBToken verifyIdToken get_parcels_id
  | DELETE_parcels_id => delete_parcels_id
  end.

(** Requests served in turn: each one is answered before the next is taken
    up. *)
Fixpoint serve (rs : list (endpoint * request)) (w : world) : world :=
  match rs with
  | [] => w
  | (e, req) :: rs' => serve rs' (snd (server e req w))
  end.
End Server.

(** ** More vocabulary *)

(** The four collections are the same in both worlds. *)
Definition same_collections (w w' : world) : Prop :=
  usersCollection w' = usersCollection w ∧
  parcelCollection w' = parcelCollection w ∧
  paymentCollection w' = paymentCollection w ∧
  ridersCollection w' = ridersCollection w.

(** [new ObjectId(v)] throws. *)
Definition unconstructible (v : value) : Prop :=
  ∀ w, ∃ e, fst (ObjectId_new v w) = Throw e.

(** Not an array or an object. *)
Definition scalar (v : value) : bool :=
  match v with
  | VJson _ => false
  | _ => true
  end.

(** No stored email is an array or an object. *)
Definition scalar_emails (l : list doc) : Prop :=
  Forall (fun u => scalar (get u "email") = true) l.

(** No document has the email [e], and no stored email is an array or an
    object. *)
Definition email_free (e : string) (l : list doc) : bool :=
  forallb (fun u => scalar (get u "email") && negb (bool_decide (get u "email" = VStr e))) l.

(** No two documents carry the same email. *)
Definition unique_emails (l : list doc) : Prop :=
  ∀ i j di dj v,
    l !! i = Some di → l !! j = Some dj →
    di !! "email" = Some v → dj !! "email" = Some v → i = j.

Fixpoint no_space (s : string) : bool :=
  match s with
  | EmptyString => true
  | String c s' => negb (Ascii.eqb c " ") && no_space s'
  end.


(** The handler always answers, and leaves the four collections as they
    were. *)
Definition read_only (h : handler) : Prop :=
  ∀ req w, ∃ resp w', h req w = (Ok resp, w') ∧ same_collections w w'.

(** The computation leaves the users collection as it was. *)
Definition keeps_users {A} (m : M A) : Prop :=
  ∀ w, usersCollection (snd (m w)) = usersCollection w.

(** The users collection is as before, or one user has a new role. *)
Definition role_step (l l' : list doc) : Prop :=
  l' = l ∨ ∃ i u v, l !! i = Some u ∧ l' = <[i := <["role" := v]> u]> l.

(** A 400 answer of the handler comes with an untouched world. *)
Definition validates_first (h : handler) : Prop :=
  ∀ req w resp w', h req w = (Ok resp, w') → status resp = 400 → w' = w.

(** ** More concrete data *)

Module Fixture.
(** Dates and numbers are times; nothing else is a valid date here. *)
Definition Date_of (v : value) : option Z :=
  match v with
  | VDate ms => Some ms
  | VNum n => Some n
  | _ => None
  end.

Fixpoint insert_by (cmp : doc -> doc -> option Z) (x : doc) (l : list doc) : list doc :=
  match l with
  | [] => [x]
  | y :: l' =>
      match cmp x y with
      | Some n => if (n <? 0)%Z then x :: y :: l' else y :: insert_by cmp x l'
      | None => y :: insert_by cmp x l'
      end
  end.

(** A stable insertion sort. *)
Definition Array_sort (cmp : doc -> doc -> option Z) (l : list doc) : list doc :=
  foldl (fun acc x => insert_by cmp x acc) [] l.

Definition parcel (owner : string) (paid : string) (t : Z) : doc :=
  list_to_map [("name", VStr "Box"); ("user_email", VStr owner);
               ("payment_status", VStr paid); ("creation_date", VDate t)].

Definition new_parcel : list (string * value) :=
  [("name", VStr "Box"); ("type", VStr "doc"); ("senderRegion", VStr "N");
   ("receiverRegion", VStr "S")].

(** The text of the id that [Sample.empty] generates next. *)
Definition oid_one : string := "000000000000000000000001".
End Fixture.

(** * Properties *)

(** ** How the collection operations run *)

(** One step of a handler: the first [await] of the sequence is run. *)
Ltac run_bind := unfold mbind at 1, M_bind at 1.

Lemma docs_of_add_log c e w : docs_of c (add_log e w) = docs_of c w.
Proof. by destruct c. Qed.

Lemma updateOne_run c p upd w :
  updateOne c p upd w =
    match first_match p (docs_of c w) with
    | None => (Ok {| matchedCount := 0; modifiedCount := 0 |}, add_log (DbUpdateOne c) w)
    | Some (i, d) =>
        if decide (set_fields upd d = d)
        then (Ok {| matchedCount := 1; modifiedCount := 0 |}, add_log (DbUpdateOne c) w)
        else (Ok {| matchedCount := 1; modifiedCount := 1 |},
              set_docs c (<[i := set_fields upd d]> (docs_of c w)) (add_log (DbUpdateOne c) w))
    end.
Proof.
  unfold updateOne, mbind, M_bind, record, read; simpl.
  rewrite docs_of_add_log.
  destruct (first_match p (docs_of c w)) as [[i d]|]; [|done].
  by destruct (decide (set_fields upd d = d)).
Qed.

Lemma ObjectId_new_run v w o :
  fst (ObjectId_new v w) = Ok o →
  ∃ n, o = VOid n ∧
  (ObjectId_new v w = (Ok o, w) ∨ ObjectId_new v w = (Ok o, bump_oid w)).
Proof.
  destruct v; simpl; unfold fresh_oid, throw, mret, M_ret; simpl;
    try (intros [= <-]; eauto; fail); try done.
  destruct (String.length s =? 24)%nat; [|done].
  destruct (hex_value 0 s); [|done]. intros [= <-]; eauto.
Qed.

Lemma insertOne_fresh c d w :
  d !! "_id" = None →
  insertOne c d w =
    (Ok (VOid (next_oid w)),
     set_docs c (docs_of c w ++ [<["_id" := VOid (next_oid w)]> (bson <$> d)])
              (bump_oid (add_log (DbInsertOne c) w))).
Proof.
  intros H. unfold insertOne, get. rewrite H. simpl.
  unfold mbind, M_bind, record, read, fresh_oid, write, mret, M_ret; simpl.
  by rewrite docs_of_add_log; destruct c.
Qed.

Lemma set_one_field k v (d : doc) :
  set_fields (list_to_map [(k, v)]) d = <[k := bson v]> d.
Proof.
  unfold set_fields. simpl. rewrite insert_empty, map_fmap_singleton.
  symmetry. apply insert_union_singleton_l.
Qed.

Lemma ObjectId_new_text id o w :
  String.length id = 24 → hex_value 0 id = Some o →
  ObjectId_new (VStr id) w = (Ok (VOid o), w).
Proof. intros Hl Hh. unfold ObjectId_new. by rewrite Hl, Hh. Qed.


(** ** Payment confirmation *)




Lemma first_match_insert (p : doc -> bool) (l : list doc) i d d' :
  first_match p l = Some (i, d) → p d' = true →
  first_match p (<[i := d']> l) = Some (i, d').
Proof.
  unfold first_match. rewrite !list_find_Some. intros (Hi & _ & Hlt) Hp.
  split; [|split; [done|]].
  - apply list_lookup_insert_eq. by eapply lookup_lt_Some.
  - intros j y Hj Hji. rewrite list_lookup_insert_ne in Hj by lia. eauto.
Qed.

Lemma findOne_run c p w :
  findOne c p w = (Ok (snd <$> first_match p (docs_of c w)), add_log (DbFindOne c) w).
Proof.
  unfold findOne, mbind, M_bind, record, read, mret, M_ret; simpl.
  by rewrite docs_of_add_log.
Qed.

Lemma ObjectId_new_throws v w e w' :
  ObjectId_new v w = (Throw e, w') → w' = w.
Proof.
  destruct v as [| |b|n|s|ms|o|t]; cbn; unfold fresh_oid, throw, mret, M_ret;
    try congruence.
  destruct (String.length s =? 24)%nat; [destruct (hex_value 0 s)|]; congruence.
Qed.

(** ** Rider status *)

(** C2 (as amended). UpdateStatus puts no condition on the rider's current
    status: for a rider found by its id, whatever its current status, a
    request for any of pending, active and rejected leaves the rider with the
    requested status; it is a success when that status differs from the
    current one, and the reported no-op (404) only when it is the current one.
    Neither active nor rejected is terminal. *)
Theorem patch_riders_id_any_transition (req : request) (w : world)
    (id s : string) (o : N) (i : nat) (r : doc) :
  params req !! "id" = Some id →
  String.length id = 24 → hex_value 0 id = Some o →
  get (body req) "status" = VStr s →
  In s validStatus →
  first_match (field_is "_id" (VOid o)) (ridersCollection w) = Some (i, r) →
  ∃ resp w',
    patch_riders_id req w = (Ok resp, w') ∧
    ridersCollection w' = <[i := <["status" := VStr s]> r]> (ridersCollection w) ∧
    (r !! "status" ≠ Some (VStr s) →
       status resp = 200 ∧ field "success" resp = Some (JVal (VBool true))) ∧
    (r !! "status" = Some (VStr s) →
       status resp = 404 ∧ ridersCollection w' = ridersCollection w).
Proof.
  intros Hid Hlen Hhex Hst Hin Hf.
  assert (Hrun : ∀ w0, ridersCollection w0 = ridersCollection w →
    ∃ resp w',
      try_catch
        (oid ← ObjectId_new (VStr id);
         result ← updateOne Riders (field_is "_id" oid) (list_to_map [("status", VStr s)]);
         if (modifiedCount result =? 0)%nat
         then mret (status_send 404 (success_message false "Rider not found or status unchanged"))
         else mret (send (RObj [("success", j_true);
                                ("message", JTpl "Rider status updated to " (VStr s) "")])))
        (fun _ => mret (status_send 500 (success_message false "Internal server error"))) w0
        = (Ok resp, w') ∧
      ridersCollection w' = <[i := <["status" := VStr s]> r]> (ridersCollection w) ∧
      (r !! "status" ≠ Some (VStr s) →
         status resp = 200 ∧ field "success" resp = Some (JVal (VBool true))) ∧
      (r !! "status" = Some (VStr s) →
         status resp = 404 ∧ ridersCollection w' = ridersCollection w)).
  { intros w0 Hw0. unfold try_catch, mbind at 1, M_bind at 1.
    rewrite (ObjectId_new_text id o) by done.
    run_bind. rewrite updateOne_run. cbn [docs_of].
    rewrite Hw0, Hf, set_one_field. cbn [bson].
    pose proof Hf as (Hi & _ & _)%list_find_Some.
    destruct (decide (<["status" := VStr s]> r = r)) as [Heq|Hneq].
    - eexists _, _. split; [reflexivity|]. cbn. rewrite Hw0, Heq, list_insert_id by done.
      split; [done|]. split; [|done].
      intros Hne. exfalso. apply Hne. rewrite <- Heq. apply lookup_insert_eq.
    - eexists _, _. split; [reflexivity|]. cbn.
      split; [done|]. split; [done|].
      intros Hst'. exfalso. apply Hneq. by apply insert_id. }
  unfold patch_riders_id, param. rewrite Hid, Hst. cbn [from_option].
  assert (Hs : s ≠ "").
  { intros ->. cbn in Hin. destruct Hin as [|[|[|[]]]]; discriminate. }
  assert (Hid' : id ≠ "") by (intros ->; discriminate).
  cbn [truthy]. rewrite (proj2 (String.eqb_neq _ _) Hs), (proj2 (String.eqb_neq _ _) Hid').
  cbn [negb orb].
  assert (Hinc : includes validStatus (VStr s) = true).
  { cbn in Hin. destruct Hin as [<-|[<-|[<-|[]]]]; reflexivity. }
  rewrite Hinc. cbn [negb].
  run_bind.
  destruct (strict_eq (VStr s) (VStr "active")).
  - run_bind. rewrite updateOne_run.
    destruct (first_match _ (docs_of Users w)) as [[j u]|];
      [destruct (decide _)|]; cbn [mret M_ret]; apply Hrun; by destruct w.
  - cbn [mret M_ret]. by apply Hrun.
Qed.

(** C2, witness: an active rider is rejected. *)
Lemma patch_riders_id_any_transition_witness :
  let w := Sample.with_riders [Sample.rider "active"] Sample.empty in
  ∃ resp w',
    patch_riders_id
      (Sample.request_of [("id", Sample.oid1)] [] [("status", VStr "rejected")]) w
      = (Ok resp, w') ∧
    ridersCollection w' =
      <[0 := <["status" := VStr "rejected"]> (Sample.rider "active")]> (ridersCollection w) ∧
    (Sample.rider "active" !! "status" ≠ Some (VStr "rejected") →
       status resp = 200 ∧ field "success" resp = Some (JVal (VBool true))) ∧
    (Sample.rider "active" !! "status" = Some (VStr "rejected") →
       status resp = 404 ∧ ridersCollection w' = ridersCollection w).
Proof.
  apply (patch_riders_id_any_transition _ _ Sample.oid1 "rejected"
           31170871365409138629861165273%N 0 (Sample.rider "active")).
  - reflexivity.
  - reflexivity.
  - reflexivity.
  - reflexivity.
  - cbn. tauto.
  - reflexivity.
Defined.

(** C2, counterexample to the claim as first stated: the rider is active, the
    request asks for rejected, the answer is a success and the stored status
    is rejected; a second request takes the same rider back to pending. *)
Lemma patch_riders_id_leaves_active :
  let w := Sample.with_riders [Sample.rider "active"] Sample.empty in
  let to_status s := Sample.request_of [("id", Sample.oid1)] [] [("status", VStr s)] in
  let w1 := snd (patch_riders_id (to_status "rejected") w) in
  let w2 := snd (patch_riders_id (to_status "pending") w1) in
  ridersCollection w = [Sample.rider "active"] ∧
  status <$> res_value (fst (patch_riders_id (to_status "rejected") w)) = Some 200 ∧
  ridersCollection w1 = [Sample.rider "rejected"] ∧
  status <$> res_value (fst (patch_riders_id (to_status "pending") w1)) = Some 200 ∧
  ridersCollection w2 = [Sample.rider "pending"].
Proof. repeat split; vm_compute; reflexivity. Qed.

(** C3. A request for status active, naming the email of a registered user,
    first issues the role update on the users collection and only then the
    rider update; the user's role is rider in the resulting collection
    whatever the rider update does (success, failure, or the 404 of an id that
    matches no rider), and a role lookup for that email then answers rider. *)
Theorem patch_riders_id_promotes (req : request) (w : world)
    (e : string) (i : nat) (u : doc) :
  truthy (param req "id") = true →
  get (body req) "status" = VStr "active" →
  get (body req) "email" = VStr e →
  e ≠ "" →
  first_match (field_is "email" (VStr e)) (usersCollection w) = Some (i, u) →
  ∃ resp w' rest,
    patch_riders_id req w = (Ok resp, w') ∧
    log w' = log w ++ DbUpdateOne Users :: rest ∧
    (rest = [] ∨ rest = [DbUpdateOne Riders]) ∧
    (status resp = 200 ∨ status resp = 404 ∨ status resp = 500) ∧
    (∀ id o, params req !! "id" = Some id →
       String.length id = 24 → hex_value 0 id = Some o →
       first_match (field_is "_id" (VOid o)) (ridersCollection w) = None →
       status resp = 404) ∧
    usersCollection w' = <[i := <["role" := VStr "rider"]> u]> (usersCollection w) ∧
    ∀ req', params req' !! "email" = Some e →
      fst (get_users_role_email req' w') =
        Ok (send (RObj [("success", j_true); ("role", JVal (VStr "rider"))])).
Proof.
  intros Hid Hst Hem He Hf.
  set (u' := <["role" := VStr "rider"]> u).
  set (us := <[i := u']> (usersCollection w)).
  assert (Hu' : field_is "email" (VStr e) u' = true).
  { apply list_find_Some in Hf as (_ & Hp & _). revert Hp.
    unfold u', field_is. cbn [bson]. rewrite !bool_decide_eq_true.
    by rewrite lookup_insert_ne. }
  assert (Hrole : ∀ w0, usersCollection w0 = us →
    ∀ req', params req' !! "email" = Some e →
      fst (get_users_role_email req' w0) =
        Ok (send (RObj [("success", j_true); ("role", JVal (VStr "rider"))]))).
  { intros w0 Hw0 req' Hp. unfold get_users_role_email, param. rewrite Hp.
    cbn [from_option truthy]. rewrite (proj2 (String.eqb_neq _ _) He). cbn [negb].
    unfold try_catch, mbind, M_bind. rewrite findOne_run. cbn [docs_of].
    rewrite Hw0. unfold us. rewrite (first_match_insert _ _ _ _ _ Hf Hu').
    cbn. unfold get, u'. by rewrite lookup_insert_eq. }
  assert (Hrest : ∀ w0, usersCollection w0 = us → ridersCollection w0 = ridersCollection w →
    log w0 = log w ++ [DbUpdateOne Users] →
    ∃ resp w' rest,
      try_catch
        (oid ← ObjectId_new (param req "id");
         result ← updateOne Riders (field_is "_id" oid) (list_to_map [("status", VStr "active")]);
         if (modifiedCount result =? 0)%nat
         then mret (status_send 404 (success_message false "Rider not found or status unchanged"))
         else mret (send (RObj [("success", j_true);
                                ("message", JTpl "Rider status updated to " (VStr "active") "")])))
        (fun _ => mret (status_send 500 (success_message false "Internal server error"))) w0
        = (Ok resp, w') ∧
      log w' = log w ++ DbUpdateOne Users :: rest ∧
      (rest = [] ∨ rest = [DbUpdateOne Riders]) ∧
      (status resp = 200 ∨ status resp = 404 ∨ status resp = 500) ∧
      (∀ id o, params req !! "id" = Some id →
         String.length id = 24 → hex_value 0 id = Some o →
         first_match (field_is "_id" (VOid o)) (ridersCollection w) = None →
         status resp = 404) ∧
      usersCollection w' = us).
  { intros w0 Hw0 Hr0 Hl0. unfold try_catch, mbind at 1, M_bind at 1.
    destruct (ObjectId_new (param req "id") w0) as [[o|ex] w1] eqn:Ho.
    - assert (fst (ObjectId_new (param req "id") w0) = Ok o) as Ho' by (by rewrite Ho).
      destruct (ObjectId_new_run _ _ _ Ho') as (n & -> & Hrun).
      assert (usersCollection w1 = us ∧ log w1 = log w ++ [DbUpdateOne Users]) as [Hw1 Hl1].
      { rewrite Ho in Hrun. destruct Hrun as [Hr|Hr]; injection Hr as Hr; subst w1; cbn; auto. }
      assert (Hnone : ∀ id o', params req !! "id" = Some id →
                String.length id = 24 → hex_value 0 id = Some o' →
                first_match (field_is "_id" (VOid o')) (ridersCollection w) = None →
                first_match (field_is "_id" (VOid n)) (docs_of Riders w1) = None).
      { intros id o' Hp Hlen Hhex Hn. unfold param in Ho. rewrite Hp in Ho.
        cbn [from_option] in Ho. rewrite (ObjectId_new_text id o') in Ho by done.
        injection Ho as <- <-. cbn [docs_of]. by rewrite Hr0. }
      run_bind. rewrite updateOne_run.
      destruct (first_match _ (docs_of Riders w1)) as [[j r]|] eqn:Hfm;
        [destruct (decide _)|]; cbn;
        eexists _, _, [DbUpdateOne Riders]; (split; [reflexivity|]); cbn;
        rewrite Hl1, <- app_assoc; (split; [done|]); (split; [auto|]); (split; [auto|]);
        (split; [|done]); intros id o' Hp Hlen Hhex Hn; try done;
        discriminate (Hnone id o' Hp Hlen Hhex Hn).
    - eexists _, _, []. split; [reflexivity|]. cbn.
      pose proof (ObjectId_new_throws _ _ _ _ Ho) as ->.
      split; [by rewrite Hl0|]. split; [auto|]. split; [auto|]. split; [|done].
      intros id o' Hp Hlen Hhex Hn. unfold param in Ho. rewrite Hp in Ho.
      cbn [from_option] in Ho. by rewrite (ObjectId_new_text id o') in Ho. }
  unfold patch_riders_id. rewrite Hid, Hst, Hem. cbn [truthy String.eqb negb orb].
  change (includes validStatus (VStr "active")) with true.
  change (strict_eq (VStr "active") (VStr "active")) with true. cbn [negb].
  run_bind. run_bind.
  rewrite updateOne_run. cbn [docs_of]. rewrite Hf, set_one_field. cbn [bson].
  fold u'.
  destruct (decide (u' = u)) as [Heq|Hne]; cbn [mret M_ret].
  - destruct (Hrest (add_log (DbUpdateOne Users) w))
      as (resp & w' & rest & H1 & H2 & H3 & H4 & H5 & H6).
    { cbn. unfold us. rewrite Heq. symmetry. apply list_insert_id.
      by apply list_find_Some in Hf as (? & _). }
    { reflexivity. }
    { reflexivity. }
    exists resp, w', rest. repeat split; auto.
  - destruct (Hrest (set_docs Users us (add_log (DbUpdateOne Users) w)))
      as (resp & w' & rest & H1 & H2 & H3 & H4 & H5 & H6); [reflexivity..|].
    exists resp, w', rest. repeat split; auto.
Qed.

(** C3, witness: the user is registered and no rider has the given id. *)
Lemma patch_riders_id_promotes_witness :
  let req := Sample.request_of [("id", Sample.oid1)] []
               [("status", VStr "active"); ("email", VStr "u@x.com")] in
  let w := Sample.with_users [Sample.user "root@x.com" "admin"; Sample.user "u@x.com" "user"]
             Sample.empty in
  ∃ resp w' rest,
    patch_riders_id req w = (Ok resp, w') ∧
    log w' = log w ++ DbUpdateOne Users :: rest ∧
    (rest = [] ∨ rest = [DbUpdateOne Riders]) ∧
    (status resp = 200 ∨ status resp = 404 ∨ status resp = 500) ∧
    (∀ id o, params req !! "id" = Some id →
       String.length id = 24 → hex_value 0 id = Some o →
       first_match (field_is "_id" (VOid o)) (ridersCollection w) = None →
       status resp = 404) ∧
    usersCollection w' =
      <[1 := <["role" := VStr "rider"]> (Sample.user "u@x.com" "user")]> (usersCollection w) ∧
    ∀ req', params req' !! "email" = Some "u@x.com" →
      fst (get_users_role_email req' w') =
        Ok (send (RObj [("success", j_true); ("role", JVal (VStr "rider"))])).
Proof.
  intros req w.
  apply (patch_riders_id_promotes req w "u@x.com" 1 (Sample.user "u@x.com" "user")).
  - reflexivity.
  - reflexivity.
  - reflexivity.
  - discriminate.
  - reflexivity.
Defined.

(** On that input the rider update finds nothing and the answer is 404, yet
    the role lookup that follows answers rider. *)
Example promotion_survives_not_found :
  let w := Sample.with_users [Sample.user "u@x.com" "user"] Sample.empty in
  let run :=
    patch_riders_id
      (Sample.request_of [("id", Sample.oid1)] []
         [("status", VStr "active"); ("email", VStr "u@x.com")]) w in
  fst run = Ok (status_send 404 (success_message false "Rider not found or status unchanged")) ∧
  fst (get_users_role_email (Sample.request_of [("email", "u@x.com")] [] []) (snd run)) =
    Ok (send (RObj [("success", j_true); ("role", JVal (VStr "rider"))])).
Proof. split; vm_compute; reflexivity. Qed.

(** ** Access control *)

Lemma verifyFBToken_pass verifyIdToken (next : handler) req d :
  authenticated verifyIdToken req d →
  verifyFBToken verifyIdToken next req =
    next (Request (authorization req) (params req) (query req) (body req) (Some d)).
Proof.
  intros (h & token & Hh & Ht & Hne & Hv). unfold verifyFBToken. rewrite Hh.
  assert (h ≠ "") as Hh' by (intros ->; discriminate).
  cbn [truthy]. rewrite (proj2 (String.eqb_neq _ _) Hh'). cbn [negb].
  rewrite Ht. rewrite (proj2 (String.eqb_neq _ _) Hne). cbn [negb].
  by rewrite Hv.
Qed.

(** A valid credential whose user is not an admin: 403, after one lookup in
    the users collection. *)
Lemma admin_route_insufficient_role verifyIdToken regex_test r req d w :
  admin_only r = true →
  authenticated verifyIdToken req d →
  (∀ u, snd <$> first_match (field_is "email" (get d "email")) (usersCollection w) = Some u →
        get u "role" ≠ VStr "admin") →
  app verifyIdToken regex_test r req w =
    (Ok (status_send 403 (message_only "Forbidden access")), add_log (DbFindOne Users) w).
Proof.
  intros Hr Ha Hu.
  assert (∀ h, admin verifyIdToken h req w =
    (Ok (status_send 403 (message_only "Forbidden access")), add_log (DbFindOne Users) w)) as H.
  { intros h. unfold admin. rewrite (verifyFBToken_pass _ _ _ _ Ha).
    unfold verifyAdmin, decoded_email. cbn [decoded].
    run_bind. cbn [mret M_ret].
    run_bind. rewrite findOne_run. cbn [docs_of].
    destruct (snd <$> first_match _ (usersCollection w)) as [u|] eqn:Hf; [|done].
    specialize (Hu u eq_refl).
    destruct (get u "role") as [| |b|n|s|ms|o|t]; try done.
    cbn [strict_eq]. destruct (String.eqb_spec s "admin") as [->|]; done. }
  destruct r; try discriminate; apply H.
Qed.

(** C4 (the code at the failing input). On every admin-only route a request
    without an Authorization header is answered 404 with the message
    "Unauthorized access", and the world, log included, is untouched: no
    database round trip was made. *)
Theorem admin_route_no_credential verifyIdToken regex_test (r : route)
    (req : request) (w : world) :
  admin_only r = true →
  authorization req = None →
  app verifyIdToken regex_test r req w =
    (Ok (status_send 404 (message_only "Unauthorized access")), w).
Proof.
  intros Hr Ha.
  destruct r; try discriminate; cbn [app]; unfold admin, verifyFBToken; by rewrite Ha.
Qed.

(** C4, witness: [GET /riders/pending] without a credential. *)
Lemma admin_route_no_credential_witness :
  app Sample.verifyIdToken dot_regex GET_riders_pending
      (Sample.request_of [] [] [])
      (Sample.with_riders [Sample.rider "pending"] Sample.empty) =
    (Ok (status_send 404 (message_only "Unauthorized access")),
     Sample.with_riders [Sample.rider "pending"] Sample.empty).
Proof. apply admin_route_no_credential; reflexivity. Defined.

(** ** Storing what the client sends *)

Lemma lookup_stored (b : doc) (i : value) (k : string) :
  k ≠ "_id" → (<["_id" := i]> (bson <$> b)) !! k = bson <$> b !! k.
Proof. intros Hk. by rewrite lookup_insert_ne, lookup_fmap. Qed.

(** C5 (as amended). A rider application whose body has no _id is stored as
    the body gives it, under a generated _id: every other field of the stored
    record, status and submittedAt included, is the field of the body, and is
    absent when the body has none. *)
Theorem post_riders_stores_body (req : request) (w : world) :
  body req !! "_id" = None →
  ∃ stored w',
    post_riders req w =
      (Ok (send (RObj [("acknowledged", j_true); ("insertedId", JVal (VOid (next_oid w)))])), w') ∧
    ridersCollection w' = ridersCollection w ++ [stored] ∧
    stored !! "_id" = Some (VOid (next_oid w)) ∧
    stored !! "status" = bson <$> body req !! "status" ∧
    stored !! "submittedAt" = bson <$> body req !! "submittedAt" ∧
    ∀ k, k ≠ "_id" → stored !! k = bson <$> body req !! k.
Proof.
  intros Hid. unfold post_riders, mbind, M_bind. rewrite insertOne_fresh by done.
  eexists _, _. split; [reflexivity|]. cbn.
  split; [reflexivity|]. split; [apply lookup_insert_eq|].
  repeat split; intros; by apply lookup_stored.
Qed.

(** C5, witness. *)
Lemma post_riders_stores_body_witness :
  let req := Sample.request_of [] [] [("name", VStr "Rafi"); ("status", VStr "active")] in
  ∃ stored w',
    post_riders req Sample.empty =
      (Ok (send (RObj [("acknowledged", j_true);
                       ("insertedId", JVal (VOid (next_oid Sample.empty)))])), w') ∧
    ridersCollection w' = ridersCollection Sample.empty ++ [stored] ∧
    stored !! "_id" = Some (VOid (next_oid Sample.empty)) ∧
    stored !! "status" = bson <$> body req !! "status" ∧
    stored !! "submittedAt" = bson <$> body req !! "submittedAt" ∧
    ∀ k, k ≠ "_id" → stored !! k = bson <$> body req !! k.
Proof. apply post_riders_stores_body. reflexivity. Defined.

(** C5, counterexample to the claim as first stated: the body asks for status
    active and has no submittedAt; the stored record has status active and no
    submittedAt. *)
Lemma post_riders_keeps_client_status :
  let req := Sample.request_of [] [] [("name", VStr "Rafi"); ("status", VStr "active")] in
  let stored : doc :=
    list_to_map [("_id", VOid 1); ("name", VStr "Rafi"); ("status", VStr "active")] in
  ridersCollection (snd (post_riders req Sample.empty)) = [stored] ∧
  stored !! "status" = Some (VStr "active") ∧
  stored !! "status" ≠ Some (VStr "pending") ∧
  stored !! "submittedAt" = None.
Proof. repeat split; try (vm_compute; reflexivity). discriminate. Qed.

Lemma post_parcels_guard (b : doc) :
  negb (truthy (get b "name")) || negb (truthy (get b "type"))
  || negb (truthy (get b "senderRegion")) || negb (truthy (get b "receiverRegion"))
  = negb (required_present b).
Proof. unfold required_present. by repeat destruct (truthy _). Qed.

(** C6 (as amended). When one of name, type, senderRegion, receiverRegion is
    absent, empty or otherwise falsy, creation answers 400 and stores nothing.
    Otherwise a body without an _id is stored as the client sent it, under a
    generated _id that the 201 answer returns: payment_status and
    creation_date are the body's own, absent when the body has none. *)
Theorem post_parcels_create (req : request) (w : world) :
  (required_present (body req) = false →
     post_parcels req w =
       (Ok (status_send 400 (success_message false "Missing required fields")), w)) ∧
  (required_present (body req) = true → body req !! "_id" = None →
     ∃ stored w',
       post_parcels req w =
         (Ok (status_send 201 (RObj [("success", j_true);
                                     ("message", JVal (VStr "Parcel added successfully!"));
                                     ("insertedId", JVal (VOid (next_oid w)))])), w') ∧
       parcelCollection w' = parcelCollection w ++ [stored] ∧
       stored !! "_id" = Some (VOid (next_oid w)) ∧
       stored !! "payment_status" = bson <$> body req !! "payment_status" ∧
       stored !! "creation_date" = bson <$> body req !! "creation_date" ∧
       ∀ k, k ≠ "_id" → stored !! k = bson <$> body req !! k).
Proof.
  unfold post_parcels. rewrite post_parcels_guard. split.
  - by intros ->.
  - intros -> Hid. cbn [negb]. unfold try_catch, mbind, M_bind.
    rewrite insertOne_fresh by done.
    eexists _, _. split; [reflexivity|]. cbn.
    split; [reflexivity|]. split; [apply lookup_insert_eq|].
    repeat split; intros; by apply lookup_stored.
Qed.

(** C6, witness: a body without a name, and a complete body. *)
Lemma post_parcels_create_witness :
  let bad := Sample.request_of [] [] [("type", VStr "doc"); ("senderRegion", VStr "N");
                                      ("receiverRegion", VStr "S")] in
  let good := Sample.request_of [] [] [("name", VStr "Box"); ("type", VStr "doc");
                                       ("senderRegion", VStr "N"); ("receiverRegion", VStr "S")] in
  post_parcels bad Sample.empty =
    (Ok (status_send 400 (success_message false "Missing required fields")), Sample.empty) ∧
  ∃ stored w',
    post_parcels good Sample.empty =
      (Ok (status_send 201 (RObj [("success", j_true);
                                  ("message", JVal (VStr "Parcel added successfully!"));
                                  ("insertedId", JVal (VOid (next_oid Sample.empty)))])), w') ∧
    parcelCollection w' = parcelCollection Sample.empty ++ [stored] ∧
    stored !! "_id" = Some (VOid (next_oid Sample.empty)) ∧
    stored !! "payment_status" = bson <$> body good !! "payment_status" ∧
    stored !! "creation_date" = bson <$> body good !! "creation_date" ∧
    ∀ k, k ≠ "_id" → stored !! k = bson <$> body good !! k.
Proof.
  split.
  - apply (proj1 (post_parcels_create _ _)). reflexivity.
  - apply (proj2 (post_parcels_create _ _)); reflexivity.
Defined.

(** C6, counterexample to the claim as first stated: the four required
    fields are present and nothing else; the parcel is stored (201) with no
    payment_status and no creation_date. *)
Lemma post_parcels_no_payment_status :
  let req := Sample.request_of [] [] [("name", VStr "Box"); ("type", VStr "doc");
                                      ("senderRegion", VStr "N"); ("receiverRegion", VStr "S")] in
  let stored : doc :=
    list_to_map [("_id", VOid 1); ("name", VStr "Box"); ("type", VStr "doc");
                 ("senderRegion", VStr "N"); ("receiverRegion", VStr "S")] in
  status <$> res_value (fst (post_parcels req Sample.empty)) = Some 201 ∧
  parcelCollection (snd (post_parcels req Sample.empty)) = [stored] ∧
  stored !! "payment_status" = None ∧
  stored !! "payment_status" ≠ Some (VStr "unpaid") ∧
  stored !! "creation_date" = None.
Proof. repeat split; try (vm_compute; reflexivity). discriminate. Qed.

(** ** Rider assignment *)

Lemma truthy_bson v : truthy v = true → bson v = v.
Proof. by destruct v. Qed.

(** C7 (the code at the failing input). The assignment filter looks at the
    parcel id only.  For a parcel found by its id, assigned or not, a request
    that names another rider than the stored one, or that comes at another
    time than the stored assignedAt, is a success: the rider fields and the
    time stamp of the stored parcel are overwritten with the request's. *)
Theorem patch_parcels_assign_id_reassigns (req : request) (w : world)
    (id : string) (o : N) (i : nat) (p : doc) :
  params req !! "id" = Some id →
  String.length id = 24 → hex_value 0 id = Some o →
  truthy (get (body req) "riderId") = true →
  first_match (field_is "_id" (VOid o)) (parcelCollection w) = Some (i, p) →
  p !! "assignRider_id" ≠ Some (get (body req) "riderId")
    ∨ p !! "assignedAt" ≠ Some (VDate (now w)) →
  ∃ resp w' p',
    patch_parcels_assign_id req w = (Ok resp, w') ∧
    status resp = 200 ∧
    field "success" resp = Some (JVal (VBool true)) ∧
    parcelCollection w' = <[i := p']> (parcelCollection w) ∧
    p' !! "assignRider_id" = Some (get (body req) "riderId") ∧
    p' !! "assignRider_name" = Some (bson (get (body req) "riderName")) ∧
    p' !! "riderContact" = Some (bson (get (body req) "riderContact")) ∧
    p' !! "assignedAt" = Some (VDate (now w)) ∧
    p' !! "delivery_status" = Some (VStr "in_transit").
Proof.
  intros Hid Hlen Hhex Hr Hf Hdiff.
  unfold patch_parcels_assign_id, param. rewrite Hid, Hr. cbn [from_option truthy].
  assert (id ≠ "") as Hid' by (intros ->; discriminate).
  rewrite (proj2 (String.eqb_neq _ _) Hid'). cbn [negb orb].
  unfold try_catch, mbind at 1, M_bind at 1, Date_new.
  run_bind. rewrite (ObjectId_new_text id o) by done.
  run_bind. rewrite updateOne_run. cbn [docs_of]. rewrite Hf.
  set (upd := list_to_map _ : doc).
  assert (Hl : ∀ k v, (bson <$> upd) !! k = Some v → set_fields upd p !! k = Some v).
  { intros k v Hk. unfold set_fields. by apply lookup_union_Some_l. }
  assert (H1 : set_fields upd p !! "assignRider_id" = Some (get (body req) "riderId")).
  { apply Hl. rewrite <- (truthy_bson _ Hr). reflexivity. }
  assert (H2 : set_fields upd p !! "assignedAt" = Some (VDate (now w))).
  { apply Hl. reflexivity. }
  destruct (decide (set_fields upd p = p)) as [Heq|Hne].
  - exfalso. rewrite Heq in H1, H2. by destruct Hdiff.
  - eexists _, _, (set_fields upd p). split; [reflexivity|]. cbn.
    repeat split; try done; by apply Hl.
Qed.

(** C7, witness: the parcel is assigned to rider r1 and the request names
    rider r2. *)
Lemma patch_parcels_assign_id_reassigns_witness :
  let req := Sample.request_of [("id", Sample.oid1)] []
               [("riderId", VStr "r2"); ("riderName", VStr "Bela"); ("riderContact", VStr "019")] in
  let w := Sample.with_parcels [Sample.parcel_assigned] Sample.empty in
  ∃ resp w' p',
    patch_parcels_assign_id req w = (Ok resp, w') ∧
    status resp = 200 ∧
    field "success" resp = Some (JVal (VBool true)) ∧
    parcelCollection w' = <[0 := p']> (parcelCollection w) ∧
    p' !! "assignRider_id" = Some (get (body req) "riderId") ∧
    p' !! "assignRider_name" = Some (bson (get (body req) "riderName")) ∧
    p' !! "riderContact" = Some (bson (get (body req) "riderContact")) ∧
    p' !! "assignedAt" = Some (VDate (now w)) ∧
    p' !! "delivery_status" = Some (VStr "in_transit").
Proof.
  apply (patch_parcels_assign_id_reassigns _ _ Sample.oid1
           31170871365409138629861165273%N 0 Sample.parcel_assigned).
  - reflexivity.
  - reflexivity.
  - reflexivity.
  - reflexivity.
  - reflexivity.
  - left. vm_compute. discriminate.
Defined.

(** The same input, evaluated: rider r1 is replaced by rider r2. *)
Example second_assignment_overwrites :
  let req := Sample.request_of [("id", Sample.oid1)] []
               [("riderId", VStr "r2"); ("riderName", VStr "Bela"); ("riderContact", VStr "019")] in
  let w := Sample.with_parcels [Sample.parcel_assigned] Sample.empty in
  let run := patch_parcels_assign_id req w in
  get Sample.parcel_assigned "assignRider_id" = VStr "r1" ∧
  status <$> res_value (fst run) = Some 200 ∧
  (flip get "assignRider_id" <$> parcelCollection (snd run)) = [VStr "r2"] ∧
  (flip get "assignRider_name" <$> parcelCollection (snd run)) = [VStr "Bela"].
Proof. repeat split; vm_compute; reflexivity. Qed.

(** What stays of C7: an update that changes nothing is answered 404 with one
    message, whether the parcel is absent or already holds the same values. *)
Lemma patch_parcels_assign_id_not_found (req : request) (w : world) (id : string) (o : N) :
  params req !! "id" = Some id →
  String.length id = 24 → hex_value 0 id = Some o →
  truthy (get (body req) "riderId") = true →
  first_match (field_is "_id" (VOid o)) (parcelCollection w) = None →
  patch_parcels_assign_id req w =
    (Ok (status_send 404 (success_message false "Parcel not found or already assigned")),
     add_log (DbUpdateOne Parcels) w).
Proof.
  intros Hid Hlen Hhex Hr Hf.
  unfold patch_parcels_assign_id, param. rewrite Hid, Hr. cbn [from_option truthy].
  assert (id ≠ "") as Hid' by (intros ->; discriminate).
  rewrite (proj2 (String.eqb_neq _ _) Hid'). cbn [negb orb].
  unfold try_catch, mbind at 1, M_bind at 1, Date_new.
  run_bind. rewrite (ObjectId_new_text id o) by done.
  run_bind. rewrite updateOne_run. cbn [docs_of]. by rewrite Hf.
Qed.

(** ** User search *)

Lemma append_cons c (s b : string) : String c s +:+ b = String c (s +:+ b).
Proof. reflexivity. Qed.










(** ** Payment history *)

Lemma bson_le_total (a b : value) : bson_le a b = true ∨ bson_le b a = true.
Proof.
  destruct a as [| |x|x|x|x|x|x], b as [| |y|y|y|y|y|y]; cbn; auto.
  - destruct x, y; auto.
  - destruct (Z.leb_spec x y), (Z.leb_spec y x); auto; lia.
  - apply String.leb_total.
  - destruct (Z.leb_spec x y), (Z.leb_spec y x); auto; lia.
  - destruct (N.leb_spec x y), (N.leb_spec y x); auto; lia.
Qed.

#[global] Instance desc_by_total k : Total (desc_by k).
Proof. intros d1 d2. unfold desc_by. destruct (bson_le_total (get d2 k) (get d1 k)); auto. Qed.



Lemma get_payments_run (req : request) (d : doc) (w : world) :
  decoded req = Some d →
  get_payments req w =
    if negb (strict_eq (get d "email") (get (query req) "email"))
    then (Ok (status_send 403 (message_only "Forbidden access")), w)
    else if negb (truthy (get (query req) "email"))
    then (Ok (status_send 400 (success_message false "Email is required in query!")), w)
    else (Ok (send (RDocs (sort_desc "date"
                             (List.filter (field_is "email" (get (query req) "email"))
                                          (paymentCollection w))))),
          add_log (DbFind Payments) w).
Proof.
  intros Hd. unfold get_payments, try_catch, decoded_email. rewrite Hd.
  run_bind. cbn [mret M_ret].
  destruct (strict_eq _ _); cbn [negb]; [|done].
  destruct (truthy _); cbn [negb]; [|done].
  unfold find, mbind, M_bind, record, read, mret, M_ret. cbn.
  by rewrite ?docs_of_add_log.
Qed.


Lemma desc_by_dates k (d1 d2 : doc) (t1 t2 : Z) :
  d1 !! k = Some (VDate t1) → d2 !! k = Some (VDate t2) →
  desc_by k d1 d2 ↔ (t2 ≤ t1)%Z.
Proof.
  intros H1 H2. unfold desc_by, get. rewrite H1, H2. cbn. apply Z.leb_le.
Qed.



(** The same history, evaluated: the later payment comes first. *)
Example history_latest_first :
  let w := Sample.with_payments
             [Sample.payment "u@x.com" 100; Sample.payment "v@x.com" 200;
              Sample.payment "u@x.com" 300] Sample.empty in
  fst (app Sample.verifyIdToken dot_regex GET_payments
         (Sample.with_token "tok-user"
            (Sample.request_of [] [("email", VStr "u@x.com")] [])) w) =
    Ok (send (RDocs [Sample.payment "u@x.com" 300; Sample.payment "u@x.com" 100])).
Proof. vm_compute; reflexivity. Qed.

(** C10. The ownership test comes before the presence test.  For an
    authenticated caller whose token carries an email, a request without the
    email query parameter is refused with 403, not 400; and when that email is
    not empty no request of the caller is ever answered 400, so the "Email is
    required" answer cannot be reached. *)
Theorem get_payments_without_email verifyIdToken regex_test
    (req : request) (w : world) (d : doc) :
  authenticated verifyIdToken req d →
  get d "email" ≠ VUndefined →
  (query req !! "email" = None →
     app verifyIdToken regex_test GET_payments req w =
       (Ok (status_send 403 (message_only "Forbidden access")), w)) ∧
  (truthy (get d "email") = true →
     ∀ resp w',
       app verifyIdToken regex_test GET_payments req w = (Ok resp, w') →
       status resp ≠ 400).
Proof.
  intros Ha Hd. cbn [app].
  rewrite (verifyFBToken_pass _ _ _ _ Ha), (get_payments_run _ d) by done.
  cbn [query]. split.
  - intros Hq. unfold get at 2. rewrite Hq. cbn [default].
    by destruct (get d "email").
  - intros Ht resp w'.
    destruct (strict_eq (get d "email") (get (query req) "email")) eqn:He; cbn [negb].
    + assert (truthy (get (query req) "email") = true) as ->.
      { destruct (get d "email"), (get (query req) "email"); try done; cbn in He.
        - by apply Bool.eqb_prop in He as <-.
        - by apply Z.eqb_eq in He as <-.
        - by apply String.eqb_eq in He as <-. }
      cbn [negb]. intros [= <- <-]. discriminate.
    + intros [= <- <-]. discriminate.
Qed.

(** C10, witness: a user asks for a history without naming an email. *)
Lemma get_payments_without_email_witness :
  let w := Sample.with_payments [Sample.payment "u@x.com" 100] Sample.empty in
  let req := Sample.with_token "tok-user" (Sample.request_of [] [] []) in
  app Sample.verifyIdToken dot_regex GET_payments req w =
    (Ok (status_send 403 (message_only "Forbidden access")), w) ∧
  ∀ resp w',
    app Sample.verifyIdToken dot_regex GET_payments req w = (Ok resp, w') →
    status resp ≠ 400.
Proof.
  intros w req.
  assert (Hus : authenticated Sample.verifyIdToken req (list_to_map [("email", VStr "u@x.com")])).
  { exists "Bearer tok-user", "tok-user". repeat split. discriminate. }
  assert (Hem : get (list_to_map [("email", VStr "u@x.com")]) "email" ≠ VUndefined)
    by discriminate.
  pose proof (get_payments_without_email Sample.verifyIdToken dot_regex req w _ Hus Hem)
    as [H1 H2].
  split; [apply H1; reflexivity | apply H2; reflexivity].
Defined.


(** * Further properties *)

(** ** More on how the collection operations run *)

Lemma find_run c p post w :
  find c p post w = (Ok (post (List.filter p (docs_of c w))), add_log (DbFind c) w).
Proof.
  unfold find, mbind, M_bind, record, read, mret, M_ret; simpl.
  by rewrite docs_of_add_log.
Qed.

Lemma deleteOne_run c p w :
  deleteOne c p w =
    match first_match p (docs_of c w) with
    | None => (Ok {| deletedCount := 0 |}, w)
    | Some (i, _) => (Ok {| deletedCount := 1 |}, set_docs c (delete i (docs_of c w)) w)
    end.
Proof.
  unfold deleteOne, mbind, M_bind, read; simpl.
  by destruct (first_match p (docs_of c w)) as [[i d]|].
Qed.

Lemma same_collections_refl w : same_collections w w.
Proof. by repeat split. Qed.

Lemma same_collections_log e w : same_collections w (add_log e w).
Proof. by repeat split. Qed.

Lemma first_match_None_lookup (p : doc -> bool) (l : list doc) i d :
  first_match p l = None → l !! i = Some d → p d = false.
Proof.
  unfold first_match. rewrite list_find_None, Forall_forall. intros H Hi.
  apply not_true_is_false, H. by eapply list_elem_of_lookup_2.
Qed.

(** ** User registration *)

Lemma post_users_new (req : request) (w : world) :
  truthy (get (body req) "email") = true →
  first_match (field_is "email" (get (body req) "email")) (usersCollection w) = None →
  post_users req w =
    (Ok (status_send 201 (RObj [("success", j_true);
                                ("message", JVal (VStr "User inserted successfully"));
                                ("insertedId", JVal (VOid (next_oid w)))])),
     set_docs Users
       (usersCollection w ++
          [list_to_map [("_id", VOid (next_oid w)); ("email", get (body req) "email");
                        ("role", bson (get (body req) "role"));
                        ("created_at", bson (get (body req) "created_at"));
                        ("last_login", bson (get (body req) "last_login"))]])
       (bump_oid (add_log (DbInsertOne Users) (add_log (DbFindOne Users) w)))).
Proof.
  intros He Hf. unfold post_users. rewrite He. cbn [negb].
  unfold try_catch. run_bind. rewrite findOne_run. cbn [docs_of]. rewrite Hf.
  cbn [fmap option_fmap option_map]. run_bind.
  rewrite insertOne_fresh by reflexivity. cbn.
  rewrite <- (truthy_bson _ He) at 2. reflexivity.
Qed.

Lemma post_users_missing (req : request) (w : world) :
  truthy (get (body req) "email") = false →
  post_users req w = (Ok (status_send 400 (success_message false "Email is required")), w).
Proof. intros He. unfold post_users. by rewrite He. Qed.

Lemma post_users_taken (req : request) (w : world) i u :
  truthy (get (body req) "email") = true →
  first_match (field_is "email" (get (body req) "email")) (usersCollection w) = Some (i, u) →
  post_users req w =
    (Ok (status_send 409 (success_message false "Email already exists")),
     add_log (DbFindOne Users) w).
Proof.
  intros He Hf. unfold post_users. rewrite He. cbn [negb].
  unfold try_catch. run_bind. rewrite findOne_run. cbn [docs_of]. by rewrite Hf.
Qed.

Lemma text_truthy (s : string) : s ≠ "" → truthy (VStr s) = true.
Proof. intros Hs. cbn. by rewrite (proj2 (String.eqb_neq _ _) Hs). Qed.

(** No document of [l] matches the filter [{ email: e }]. *)
Lemma email_free_no_match (e : string) (l : list doc) :
  email_free e l = true → first_match (field_is "email" (VStr e)) l = None.
Proof.
  intros H. unfold first_match. apply list_find_None.
  induction l as [|u l IH]; [constructor|].
  cbn [email_free forallb] in H. apply andb_true_iff in H as [Hu Hl].
  constructor; [|by apply IH].
  apply andb_true_iff in Hu as [_ Hu]. apply negb_true_iff, bool_decide_eq_false in Hu.
  unfold field_is. cbn [bson]. rewrite bool_decide_eq_true. intros Hk. apply Hu.
  unfold get. by rewrite Hk.
Qed.

(** X1. A registration whose email is a non-empty text that no stored user
    has (no stored email being an array or an object) is answered 201 with
    the generated id, and stores one user made of the four known fields only:
    whatever else the body carries, an _id included, is not stored. *)
Theorem post_users_registers (req : request) (w : world) (e : string) :
  get (body req) "email" = VStr e → e ≠ "" →
  email_free e (usersCollection w) = true →
  ∃ stored w',
    post_users req w =
      (Ok (status_send 201 (RObj [("success", j_true);
                                  ("message", JVal (VStr "User inserted successfully"));
                                  ("insertedId", JVal (VOid (next_oid w)))])), w') ∧
    usersCollection w' = usersCollection w ++ [stored] ∧
    stored =
      list_to_map [("_id", VOid (next_oid w)); ("email", VStr e);
                   ("role", bson (get (body req) "role"));
                   ("created_at", bson (get (body req) "created_at"));
                   ("last_login", bson (get (body req) "last_login"))] ∧
    parcelCollection w' = parcelCollection w ∧
    paymentCollection w' = paymentCollection w ∧
    ridersCollection w' = ridersCollection w.
Proof.
  intros He Hne Hfree.
  assert (truthy (get (body req) "email") = true) as Ht
    by (rewrite He; by apply text_truthy).
  assert (first_match (field_is "email" (get (body req) "email")) (usersCollection w) = None)
    as Hf by (rewrite He; by apply email_free_no_match).
  rewrite (post_users_new req w Ht Hf), He.
  eexists _, _. split; [reflexivity|]. by cbn.
Qed.

(** X1, witness. *)
Lemma post_users_registers_witness :
  let req := Sample.request_of [] []
               [("email", VStr "n@x.com"); ("role", VStr "user"); ("isAdmin", VBool true);
                ("_id", VStr "mine")] in
  let w := Sample.with_users [Sample.user "u@x.com" "user"] Sample.empty in
  ∃ stored w',
    post_users req w =
      (Ok (status_send 201 (RObj [("success", j_true);
                                  ("message", JVal (VStr "User inserted successfully"));
                                  ("insertedId", JVal (VOid (next_oid w)))])), w') ∧
    usersCollection w' = usersCollection w ++ [stored] ∧
    stored =
      list_to_map [("_id", VOid (next_oid w)); ("email", VStr "n@x.com");
                   ("role", bson (get (body req) "role"));
                   ("created_at", bson (get (body req) "created_at"));
                   ("last_login", bson (get (body req) "last_login"))] ∧
    parcelCollection w' = parcelCollection w ∧
    paymentCollection w' = paymentCollection w ∧
    ridersCollection w' = ridersCollection w.
Proof.
  intros req w.
  apply (post_users_registers req w "n@x.com"); [reflexivity | discriminate | reflexivity].
Defined.

(** X2. A registration without a truthy email is answered 400 before any
    database access; one whose email a stored user already has is answered 409
    after a single lookup, and no collection changes. *)
Theorem post_users_rejects (req : request) (w : world) :
  (truthy (get (body req) "email") = false →
     post_users req w =
       (Ok (status_send 400 (success_message false "Email is required")), w)) ∧
  (∀ i u, truthy (get (body req) "email") = true →
     first_match (field_is "email" (get (body req) "email")) (usersCollection w) = Some (i, u) →
     post_users req w =
       (Ok (status_send 409 (success_message false "Email already exists")),
        add_log (DbFindOne Users) w)).
Proof.
  split.
  - apply post_users_missing.
  - intros i u. apply post_users_taken.
Qed.

(** X2, witness. *)
Lemma post_users_rejects_witness :
  let w := Sample.with_users [Sample.user "u@x.com" "user"] Sample.empty in
  post_users (Sample.request_of [] [] [("role", VStr "admin")]) w =
    (Ok (status_send 400 (success_message false "Email is required")), w) ∧
  post_users (Sample.request_of [] [] [("email", VStr "u@x.com"); ("role", VStr "admin")]) w =
    (Ok (status_send 409 (success_message false "Email already exists")),
     add_log (DbFindOne Users) w).
Proof.
  intros w. split.
  - apply (proj1 (post_users_rejects _ w)). reflexivity.
  - apply (proj2 (post_users_rejects _ w) 0 (Sample.user "u@x.com" "user")); reflexivity.
Defined.

Lemma unique_emails_snoc (l : list doc) (d : doc) :
  unique_emails l →
  (∀ i di v, l !! i = Some di → d !! "email" = Some v → di !! "email" ≠ Some v) →
  unique_emails (l ++ [d]).
Proof.
  intros Hl Hd i j di dj v Hi Hj Hei Hej.
  destruct (decide (i < length l)) as [Hil|Hil], (decide (j < length l)) as [Hjl|Hjl].
  - rewrite lookup_app_l in Hi, Hj by done. eauto.
  - rewrite lookup_app_l in Hi by done. rewrite lookup_app_r in Hj by lia.
    apply list_lookup_singleton_Some in Hj as [_ <-]. by destruct (Hd i di v).
  - rewrite lookup_app_l in Hj by done. rewrite lookup_app_r in Hi by lia.
    apply list_lookup_singleton_Some in Hi as [_ <-]. by destruct (Hd j dj v).
  - rewrite lookup_app_r in Hi, Hj by lia.
    apply list_lookup_singleton_Some in Hi as [Hi _], Hj as [Hj _]. lia.
Qed.

(** Registration keeps the emails of the users collection unique. *)
Lemma post_users_unique (req : request) (w : world) :
  unique_emails (usersCollection w) →
  unique_emails (usersCollection (snd (post_users req w))).
Proof.
  intros Hu.
  destruct (truthy (get (body req) "email")) eqn:He.
  - destruct (first_match (field_is "email" (get (body req) "email")) (usersCollection w))
      as [[i u]|] eqn:Hf.
    + by rewrite (post_users_taken req w i u He Hf).
    + rewrite (post_users_new req w He Hf). cbn [snd set_docs usersCollection].
      apply unique_emails_snoc; [done|].
      intros i di v Hi Hv Hdi.
      change (Some (get (body req) "email") = Some v) in Hv. injection Hv as <-.
      pose proof (first_match_None_lookup _ _ _ _ Hf Hi) as Hno.
      unfold field_is in Hno. rewrite (truthy_bson _ He) in Hno.
      destruct (get (body req) "email"); try done;
        by rewrite bool_decide_eq_false in Hno.
  - by rewrite (post_users_missing req w He).
Qed.

(** ** One parcel: fetch and delete *)

Lemma param_text (req : request) k (id : string) :
  params req !! k = Some id → param req k = VStr id.
Proof. intros H. unfold param. by rewrite H. Qed.

Lemma text_id_truthy (id : string) : String.length id = 24 → truthy (VStr id) = true.
Proof. by destruct id. Qed.

Lemma get_parcels_id_run (req : request) (w : world) (id : string) (o : N) :
  params req !! "id" = Some id → String.length id = 24 → hex_value 0 id = Some o →
  get_parcels_id req w =
    (Ok (match first_match (field_is "_id" (VOid o)) (parcelCollection w) with
         | Some (_, p) => send (RDoc p)
         | None => status_send 404 (success_message false "Parcel not found")
         end),
     add_log (DbFindOne Parcels) w).
Proof.
  intros Hid Hlen Hhex. unfold get_parcels_id.
  rewrite (param_text _ _ _ Hid), (text_id_truthy _ Hlen). cbn [negb].
  unfold try_catch. run_bind. rewrite (ObjectId_new_text id o) by done.
  run_bind. rewrite findOne_run. cbn [docs_of].
  by destruct (first_match _ (parcelCollection w)) as [[i p]|].
Qed.

Lemma delete_parcels_id_run (req : request) (w : world) (id : string) (o : N) :
  params req !! "id" = Some id → String.length id = 24 → hex_value 0 id = Some o →
  delete_parcels_id req w =
    match first_match (field_is "_id" (VOid o)) (parcelCollection w) with
    | Some (i, _) =>
        (Ok (send (success_message true "Parcel deleted successfully")),
         set_docs Parcels (delete i (parcelCollection w)) w)
    | None => (Ok (status_send 404 (success_message false "Parcel not found")), w)
    end.
Proof.
  intros Hid Hlen Hhex. unfold delete_parcels_id.
  rewrite (param_text _ _ _ Hid), (text_id_truthy _ Hlen). cbn [negb].
  unfold try_catch. run_bind. rewrite (ObjectId_new_text id o) by done.
  run_bind. rewrite deleteOne_run. cbn [docs_of].
  by destruct (first_match _ (parcelCollection w)) as [[i p]|].
Qed.

Lemma malformed_id_throws (id : string) (w : world) :
  unconstructible (VStr id) → ∃ e, ObjectId_new (VStr id) w = (Throw e, w).
Proof.
  intros Hun. destruct (Hun w) as [e He].
  destruct (ObjectId_new (VStr id) w) as [[o|e'] w1] eqn:Ho; [discriminate|].
  apply ObjectId_new_throws in Ho as ->. by exists e'.
Qed.

(** X4. Fetching a parcel by a well-formed id answers 200 with the first
    stored parcel of that id, or 404 when there is none; a malformed id is
    answered 500.  In no case does a collection change. *)
Theorem get_parcels_id_spec (req : request) (w : world) (id : string) :
  params req !! "id" = Some id →
  (∀ o, String.length id = 24 → hex_value 0 id = Some o →
     get_parcels_id req w =
       (Ok (match first_match (field_is "_id" (VOid o)) (parcelCollection w) with
            | Some (_, p) => send (RDoc p)
            | None => status_send 404 (success_message false "Parcel not found")
            end),
        add_log (DbFindOne Parcels) w)) ∧
  (id ≠ "" → unconstructible (VStr id) →
     get_parcels_id req w =
       (Ok (status_send 500 (success_message false "Failed to fetch parcel")), w)).
Proof.
  intros Hid. split.
  - intros o Hlen Hhex. by apply (get_parcels_id_run req w id o).
  - intros Hne Hun. unfold get_parcels_id. rewrite (param_text _ _ _ Hid).
    cbn [truthy]. rewrite (proj2 (String.eqb_neq _ _) Hne). cbn [negb].
    unfold try_catch. run_bind. by destruct (malformed_id_throws id w Hun) as [e ->].
Qed.

(** X4, witness. *)
Lemma get_parcels_id_spec_witness :
  let w := Sample.with_parcels [Sample.parcel_assigned] Sample.empty in
  let good := Sample.request_of [("id", Sample.oid1)] [] [] in
  let bad := Sample.request_of [("id", "xyz")] [] [] in
  get_parcels_id good w =
    (Ok (send (RDoc Sample.parcel_assigned)), add_log (DbFindOne Parcels) w) ∧
  get_parcels_id bad w =
    (Ok (status_send 500 (success_message false "Failed to fetch parcel")), w).
Proof.
  intros w good bad. split.
  - apply (proj1 (get_parcels_id_spec good w Sample.oid1 eq_refl)
             31170871365409138629861165273%N); reflexivity.
  - apply (proj2 (get_parcels_id_spec bad w "xyz" eq_refl)); [discriminate|].
    intros w0. by exists BSONError.
Defined.

(** X5. Deleting by a well-formed id removes the first stored parcel of that
    id and nothing else, and answers 200; when no parcel has the id the answer
    is 404, and for a malformed id 500, and the world is unchanged. *)
Theorem delete_parcels_id_spec (req : request) (w : world) (id : string) :
  params req !! "id" = Some id →
  (∀ o i p, String.length id = 24 → hex_value 0 id = Some o →
     first_match (field_is "_id" (VOid o)) (parcelCollection w) = Some (i, p) →
     ∃ w',
       delete_parcels_id req w =
         (Ok (send (success_message true "Parcel deleted successfully")), w') ∧
       parcelCollection w' = delete i (parcelCollection w) ∧
       length (parcelCollection w') + 1 = length (parcelCollection w) ∧
       usersCollection w' = usersCollection w ∧
       paymentCollection w' = paymentCollection w ∧
       ridersCollection w' = ridersCollection w) ∧
  (∀ o, String.length id = 24 → hex_value 0 id = Some o →
     first_match (field_is "_id" (VOid o)) (parcelCollection w) = None →
     delete_parcels_id req w =
       (Ok (status_send 404 (success_message false "Parcel not found")), w)) ∧
  (id ≠ "" → unconstructible (VStr id) →
     delete_parcels_id req w =
       (Ok (status_send 500 (success_message false "Failed to delete parcel")), w)).
Proof.
  intros Hid. split; [|split].
  - intros o i p Hlen Hhex Hf. rewrite (delete_parcels_id_run req w id o) by done.
    rewrite Hf. eexists. split; [reflexivity|]. cbn. split; [done|]. split; [|done].
    apply list_find_Some in Hf as (Hi & _). apply lookup_lt_Some in Hi.
    rewrite length_delete by (by apply lookup_lt_is_Some_2). lia.
  - intros o Hlen Hhex Hf. rewrite (delete_parcels_id_run req w id o) by done.
    by rewrite Hf.
  - intros Hne Hun. unfold delete_parcels_id. rewrite (param_text _ _ _ Hid).
    cbn [truthy]. rewrite (proj2 (String.eqb_neq _ _) Hne). cbn [negb].
    unfold try_catch. run_bind. by destruct (malformed_id_throws id w Hun) as [e ->].
Qed.

(** X5, witness. *)
Lemma delete_parcels_id_spec_witness :
  let w := Sample.with_parcels [Sample.parcel_assigned] Sample.empty in
  let req := Sample.request_of [("id", Sample.oid1)] [] [] in
  (∃ w',
     delete_parcels_id req w =
       (Ok (send (success_message true "Parcel deleted successfully")), w') ∧
     parcelCollection w' = delete 0 (parcelCollection w) ∧
     length (parcelCollection w') + 1 = length (parcelCollection w) ∧
     usersCollection w' = usersCollection w ∧
     paymentCollection w' = paymentCollection w ∧
     ridersCollection w' = ridersCollection w) ∧
  delete_parcels_id req Sample.empty =
    (Ok (status_send 404 (success_message false "Parcel not found")), Sample.empty).
Proof.
  intros w req. split.
  - apply (proj1 (delete_parcels_id_spec req w Sample.oid1 eq_refl)
             31170871365409138629861165273%N 0 Sample.parcel_assigned); reflexivity.
  - apply (proj1 (proj2 (delete_parcels_id_spec req Sample.empty Sample.oid1 eq_refl))
             31170871365409138629861165273%N); reflexivity.
Defined.

Lemma post_parcels_run (req : request) (w : world) :
  required_present (body req) = true → body req !! "_id" = None →
  post_parcels req w =
    (Ok (status_send 201 (RObj [("success", j_true);
                                ("message", JVal (VStr "Parcel added successfully!"));
                                ("insertedId", JVal (VOid (next_oid w)))])),
     set_docs Parcels
       (parcelCollection w ++ [<["_id" := VOid (next_oid w)]> (bson <$> body req)])
       (bump_oid (add_log (DbInsertOne Parcels) w))).
Proof.
  intros Hp Hid. unfold post_parcels. rewrite post_parcels_guard, Hp. cbn [negb].
  unfold try_catch, mbind, M_bind. by rewrite insertOne_fresh.
Qed.

Lemma first_match_snoc (p : doc -> bool) (l : list doc) (x : doc) :
  first_match p l = None → p x = true → first_match p (l ++ [x]) = Some (length l, x).
Proof.
  intros Hl Hx. unfold first_match in *. rewrite list_find_app_r by done.
  cbn. rewrite decide_True by done. by cbn.
Qed.

Lemma delete_snoc (l : list doc) (x : doc) : delete (length l) (l ++ [x]) = l.
Proof.
  induction l as [|y l IH]; [done|].
  change (y :: delete (length l) (l ++ [x]) = y :: l). by rewrite IH.
Qed.

Lemma stored_has_id (b : doc) (o : N) :
  field_is "_id" (VOid o) (<["_id" := VOid o]> (bson <$> b)) = true.
Proof. unfold field_is. cbn. apply bool_decide_eq_true, lookup_insert_eq. Qed.

(** X6. Create, then fetch: when the id that creation returns is not yet in
    the collection, fetching by the text of that id answers 200 with the
    parcel as it was stored, that is the body under the new _id. *)
Theorem post_parcels_then_get (req asked : request) (w : world) (id : string) :
  required_present (body req) = true → body req !! "_id" = None →
  first_match (field_is "_id" (VOid (next_oid w))) (parcelCollection w) = None →
  params asked !! "id" = Some id →
  String.length id = 24 → hex_value 0 id = Some (next_oid w) →
  fst (get_parcels_id asked (snd (post_parcels req w))) =
    Ok (send (RDoc (<["_id" := VOid (next_oid w)]> (bson <$> body req)))).
Proof.
  intros Hp Hb Hfresh Hid Hlen Hhex. rewrite (post_parcels_run req w Hp Hb). cbn [snd].
  rewrite (get_parcels_id_run asked _ id (next_oid w)) by done.
  cbn [fst set_docs parcelCollection].
  by rewrite (first_match_snoc _ _ _ Hfresh (stored_has_id _ _)).
Qed.

(** X6, witness. *)
Lemma post_parcels_then_get_witness :
  let req := Sample.request_of [] [] Fixture.new_parcel in
  let asked := Sample.request_of [("id", Fixture.oid_one)] [] [] in
  fst (get_parcels_id asked (snd (post_parcels req Sample.empty))) =
    Ok (send (RDoc (<["_id" := VOid (next_oid Sample.empty)]> (bson <$> body req)))).
Proof.
  intros req asked.
  apply (post_parcels_then_get req asked Sample.empty Fixture.oid_one); reflexivity.
Defined.

(** X7. Create, then delete by the returned id: the delete answers 200, the
    parcels collection is what it was before the creation, and a fetch by
    that id is then answered 404. *)
Theorem post_parcels_then_delete (req asked : request) (w : world) (id : string) :
  required_present (body req) = true → body req !! "_id" = None →
  first_match (field_is "_id" (VOid (next_oid w))) (parcelCollection w) = None →
  params asked !! "id" = Some id →
  String.length id = 24 → hex_value 0 id = Some (next_oid w) →
  let w2 := snd (delete_parcels_id asked (snd (post_parcels req w))) in
  fst (delete_parcels_id asked (snd (post_parcels req w))) =
    Ok (send (success_message true "Parcel deleted successfully")) ∧
  parcelCollection w2 = parcelCollection w ∧
  fst (get_parcels_id asked w2) =
    Ok (status_send 404 (success_message false "Parcel not found")).
Proof.
  intros Hp Hb Hfresh Hid Hlen Hhex. rewrite (post_parcels_run req w Hp Hb). cbn [snd].
  rewrite (delete_parcels_id_run asked _ id (next_oid w)) by done.
  cbn [set_docs parcelCollection].
  rewrite (first_match_snoc _ _ _ Hfresh (stored_has_id _ _)). cbn zeta.
  cbn [fst snd set_docs parcelCollection]. rewrite delete_snoc.
  split; [done|]. split; [done|].
  rewrite (get_parcels_id_run asked _ id (next_oid w)) by done.
  cbn [parcelCollection fst]. by rewrite Hfresh.
Qed.

(** X7, witness. *)
Lemma post_parcels_then_delete_witness :
  let req := Sample.request_of [] [] Fixture.new_parcel in
  let asked := Sample.request_of [("id", Fixture.oid_one)] [] [] in
  let w2 := snd (delete_parcels_id asked (snd (post_parcels req Sample.empty))) in
  fst (delete_parcels_id asked (snd (post_parcels req Sample.empty))) =
    Ok (send (success_message true "Parcel deleted successfully")) ∧
  parcelCollection w2 = parcelCollection Sample.empty ∧
  fst (get_parcels_id asked w2) =
    Ok (status_send 404 (success_message false "Parcel not found")).
Proof.
  intros req asked.
  apply (post_parcels_then_delete req asked Sample.empty Fixture.oid_one); reflexivity.
Defined.

(** ** More on access control *)

Lemma verifyAdmin_run (next : handler) (req : request) (d : doc) (w : world) :
  decoded req = Some d →
  verifyAdmin next req w =
    match first_match (field_is "email" (get d "email")) (usersCollection w) with
    | Some (_, u) =>
        if strict_eq (get u "role") (VStr "admin")
        then next req (add_log (DbFindOne Users) w)
        else (Ok (status_send 403 (message_only "Forbidden access")), add_log (DbFindOne Users) w)
    | None => (Ok (status_send 403 (message_only "Forbidden access")), add_log (DbFindOne Users) w)
    end.
Proof.
  intros Hd. unfold verifyAdmin, decoded_email. rewrite Hd.
  run_bind. cbn [mret M_ret]. run_bind. rewrite findOne_run. cbn [docs_of].
  destruct (first_match _ (usersCollection w)) as [[i u]|]; [|done].
  cbn. by destruct (strict_eq (get u "role") (VStr "admin")).
Qed.

Lemma strict_eq_text (v : value) (s : string) : strict_eq v (VStr s) = true ↔ v = VStr s.
Proof.
  destruct v; cbn; try (split; congruence).
  rewrite String.eqb_eq. split; congruence.
Qed.

(** X8. What the middleware cannot authenticate it answers itself, and the
    status tells the cause: a request without an Authorization header, or
    whose header has no second word or an empty one, is answered 404
    "Unauthorized access"; a request whose second word the identity provider
    rejects is answered 403 "Forbidden access".  In both cases the handler
    behind the middleware is not run and the world is untouched. *)
Theorem verifyFBToken_rejects verifyIdToken (next : handler) (req : request) (w : world) :
  ((∀ h token,
      authorization req = Some h → split_space h !! 1%nat = Some token → token = "") →
   verifyFBToken verifyIdToken next req w =
     (Ok (status_send 404 (message_only "Unauthorized access")), w)) ∧
  (∀ h token,
     authorization req = Some h → split_space h !! 1%nat = Some token → token ≠ "" →
     verifyIdToken token = None →
     verifyFBToken verifyIdToken next req w =
       (Ok (status_send 403 (message_only "Forbidden access")), w)).
Proof.
  split.
  - intros Hno. unfold verifyFBToken.
    destruct (authorization req) as [h|] eqn:Hh; [|done].
    destruct (truthy (VStr h)); cbn [negb]; [|done].
    destruct (split_space h !! 1%nat) as [token|] eqn:Ht; [|done].
    by rewrite (Hno h token eq_refl Ht).
  - intros h token Hh Ht Hne Hv. unfold verifyFBToken. rewrite Hh.
    assert (h ≠ "") as Hh' by (intros ->; discriminate).
    cbn [truthy]. rewrite (proj2 (String.eqb_neq _ _) Hh'). cbn [negb].
    rewrite Ht, (proj2 (String.eqb_neq _ _) Hne). cbn [negb]. by rewrite Hv.
Qed.

(** X8, witness: a header with one word only is answered 404, and a token
    the provider does not know 403. *)
Lemma verifyFBToken_rejects_witness :
  let one_word := Request (Some "Bearer") ∅ ∅ ∅ None in
  let unknown := Sample.with_token "tok-stale" (Sample.request_of [] [] []) in
  verifyFBToken Sample.verifyIdToken get_payments one_word Sample.empty =
    (Ok (status_send 404 (message_only "Unauthorized access")), Sample.empty) ∧
  verifyFBToken Sample.verifyIdToken get_payments unknown Sample.empty =
    (Ok (status_send 403 (message_only "Forbidden access")), Sample.empty).
Proof.
  intros one_word unknown. split.
  - apply (proj1 (verifyFBToken_rejects Sample.verifyIdToken get_payments one_word
                    Sample.empty)).
    intros h token Hh Ht. injection Hh as <-. discriminate.
  - apply (proj2 (verifyFBToken_rejects Sample.verifyIdToken get_payments unknown
                    Sample.empty) "Bearer tok-stale" "tok-stale");
      [reflexivity | reflexivity | discriminate | reflexivity].
Defined.

Lemma split_space_one (s : string) : no_space s = true → split_space s = [s].
Proof.
  induction s as [|c s IH]; [done|]. cbn [no_space split_space].
  rewrite andb_true_iff, negb_true_iff. intros [-> Hs]. by rewrite IH.
Qed.

Lemma split_space_scheme (a b : string) :
  no_space a = true → split_space (a +:+ " " +:+ b) = a :: split_space b.
Proof.
  induction a as [|c a IH]; [done|]. cbn [no_space].
  rewrite andb_true_iff, negb_true_iff. intros [Hc Ha].
  rewrite append_cons. cbn [split_space]. by rewrite Hc, IH.
Qed.

(** X9. The middleware verifies the second word of the Authorization header
    and never looks at the first: whatever the scheme word, the request goes
    on with the claims the provider gives for the token, and is answered 403
    when the provider rejects it. *)
Theorem verifyFBToken_second_word verifyIdToken (next : handler) (req : request)
    (w : world) (scheme token : string) :
  authorization req = Some (scheme +:+ " " +:+ token) →
  no_space scheme = true → no_space token = true → token ≠ "" →
  verifyFBToken verifyIdToken next req w =
    match verifyIdToken token with
    | Some d => next (Request (authorization req) (params req) (query req) (body req) (Some d)) w
    | None => (Ok (status_send 403 (message_only "Forbidden access")), w)
    end.
Proof.
  intros Hh Hs Ht Hne. unfold verifyFBToken. rewrite Hh.
  assert (scheme +:+ " " +:+ token ≠ "") as Hh' by (by destruct scheme).
  cbn [truthy]. rewrite (proj2 (String.eqb_neq _ _) Hh'). cbn [negb].
  rewrite (split_space_scheme _ _ Hs), (split_space_one _ Ht). cbn [lookup list_lookup].
  rewrite (proj2 (String.eqb_neq _ _) Hne). cbn [negb].
  by destruct (verifyIdToken token).
Qed.

(** X9, witness: the scheme word Basic does as well as Bearer. *)
Lemma verifyFBToken_second_word_witness :
  let req := Request (Some "Basic tok-user") ∅ ∅ ∅ None in
  verifyFBToken Sample.verifyIdToken get_payments req Sample.empty =
    match Sample.verifyIdToken "tok-user" with
    | Some d =>
        get_payments (Request (authorization req) (params req) (query req) (body req) (Some d))
          Sample.empty
    | None => (Ok (status_send 403 (message_only "Forbidden access")), Sample.empty)
    end.
Proof.
  intros req.
  apply (verifyFBToken_second_word Sample.verifyIdToken get_payments req Sample.empty
           "Basic" "tok-user"); [reflexivity | reflexivity | reflexivity | discriminate].
Defined.

(** X10. A caller whose first user record by email has the role admin goes
    through the admin gate: the handler runs on the request with the decoded
    claims, after exactly one lookup in the users collection. *)
Theorem admin_gate_passes verifyIdToken (h : handler) (req : request) (w : world)
    (d : doc) (i : nat) (u : doc) :
  authenticated verifyIdToken req d →
  first_match (field_is "email" (get d "email")) (usersCollection w) = Some (i, u) →
  get u "role" = VStr "admin" →
  admin verifyIdToken h req w =
    h (Request (authorization req) (params req) (query req) (body req) (Some d))
      (add_log (DbFindOne Users) w).
Proof.
  intros Ha Hf Hr. unfold admin. rewrite (verifyFBToken_pass _ _ _ _ Ha).
  rewrite (verifyAdmin_run _ _ d) by done. rewrite Hf, Hr. done.
Qed.

(** X10, witness. *)
Lemma admin_gate_passes_witness :
  let req := Sample.with_token "tok-admin" (Sample.request_of [] [] []) in
  let w := Sample.with_users [Sample.user "root@x.com" "admin"] Sample.empty in
  admin Sample.verifyIdToken get_riders_pending req w =
    get_riders_pending
      (Request (authorization req) (params req) (query req) (body req)
         (Some (list_to_map [("email", VStr "root@x.com")])))
      (add_log (DbFindOne Users) w).
Proof.
  intros req w.
  assert (Ha : authenticated Sample.verifyIdToken req (list_to_map [("email", VStr "root@x.com")])).
  { exists "Bearer tok-admin", "tok-admin". repeat split. discriminate. }
  apply (admin_gate_passes Sample.verifyIdToken get_riders_pending req w _ 0
           (Sample.user "root@x.com" "admin") Ha); reflexivity.
Defined.



(** ** Granting and revoking the admin role *)

Lemma patch_users_role_run (role after notfound : string) (req : request) (w : world)
    (e : string) :
  params req !! "email" = Some e → e ≠ "" →
  patch_users_role role after notfound req w =
    match first_match (field_is "email" (VStr e)) (usersCollection w) with
    | Some (i, u) =>
        if decide (<["role" := VStr role]> u = u)
        then (Ok (status_send 404 (success_message false notfound)),
              add_log (DbUpdateOne Users) w)
        else (Ok (send (RObj [("success", j_true); ("message", JTpl "" (VStr e) after)])),
              set_docs Users (<[i := <["role" := VStr role]> u]> (usersCollection w))
                (add_log (DbUpdateOne Users) w))
    | None => (Ok (status_send 404 (success_message false notfound)),
               add_log (DbUpdateOne Users) w)
    end.
Proof.
  intros Hp He. unfold patch_users_role. rewrite (param_text _ _ _ Hp), (text_truthy _ He).
  cbn [negb]. unfold try_catch. run_bind. rewrite updateOne_run. cbn [docs_of].
  destruct (first_match _ (usersCollection w)) as [[i u]|]; [|done].
  rewrite set_one_field. cbn [bson]. by destruct (decide _).
Qed.

Lemma role_changes (u : doc) (r : string) :
  u !! "role" ≠ Some (VStr r) → <["role" := VStr r]> u ≠ u.
Proof. intros Hne Heq. apply Hne. rewrite <- Heq. apply lookup_insert_eq. Qed.

Lemma keeps_email (u : doc) (r : string) (v : value) :
  field_is "email" v u = true → field_is "email" v (<["role" := VStr r]> u) = true.
Proof.
  unfold field_is, get. rewrite lookup_insert_ne by done. done.
Qed.



(** X13. Revoking does not restore: a user who is made admin and then has the
    admin role removed ends with the role user, whatever the role was before
    (a rider is a rider no more).  Both requests are answered 200. *)
Theorem make_then_remove_admin (req : request) (w : world) (e : string) (i : nat) (u : doc) :
  params req !! "email" = Some e → e ≠ "" →
  first_match (field_is "email" (VStr e)) (usersCollection w) = Some (i, u) →
  u !! "role" ≠ Some (VStr "admin") →
  let w1 := snd (patch_users_make_admin req w) in
  let w2 := snd (patch_users_remove_admin req w1) in
  status <$> res_value (fst (patch_users_make_admin req w)) = Some 200 ∧
  status <$> res_value (fst (patch_users_remove_admin req w1)) = Some 200 ∧
  usersCollection w2 = <[i := <["role" := VStr "user"]> u]> (usersCollection w).
Proof.
  intros Hp He Hf Hr. unfold patch_users_make_admin, patch_users_remove_admin.
  rewrite (patch_users_role_run "admin" _ _ req w e Hp He), Hf.
  rewrite decide_False by (by apply role_changes).
  cbn [snd fst res_value fmap option_fmap option_map status send].
  rewrite (patch_users_role_run "user" _ _ req _ e Hp He).
  cbn [usersCollection set_docs].
  assert (Hk : field_is "email" (VStr e) (<["role" := VStr "admin"]> u) = true).
  { apply keeps_email. by apply list_find_Some in Hf as (_ & ? & _). }
  rewrite (first_match_insert _ _ _ _ _ Hf Hk).
  rewrite decide_False.
  2:{ apply role_changes. rewrite lookup_insert_eq. discriminate. }
  cbn [snd fst res_value fmap option_fmap option_map status send usersCollection set_docs].
  split; [done|]. split; [done|].
  by rewrite list_insert_insert_eq, insert_insert_eq.
Qed.

(** X13, witness: a rider. *)
Lemma make_then_remove_admin_witness :
  let req := Sample.request_of [("email", "u@x.com")] [] [] in
  let w := Sample.with_users [Sample.user "u@x.com" "rider"] Sample.empty in
  let w1 := snd (patch_users_make_admin req w) in
  let w2 := snd (patch_users_remove_admin req w1) in
  status <$> res_value (fst (patch_users_make_admin req w)) = Some 200 ∧
  status <$> res_value (fst (patch_users_remove_admin req w1)) = Some 200 ∧
  usersCollection w2 =
    <[0 := <["role" := VStr "user"]> (Sample.user "u@x.com" "rider")]> (usersCollection w).
Proof.
  intros req w.
  apply (make_then_remove_admin req w "u@x.com" 0 (Sample.user "u@x.com" "rider"));
    [reflexivity | discriminate | reflexivity | discriminate].
Defined.

(** X14. Grant, then pass: once make-admin has succeeded for an email, a
    caller authenticated with that email goes through the admin gate. *)
Theorem make_admin_then_gate verifyIdToken (h : handler) (req caller : request)
    (w : world) (e : string) (i : nat) (u d : doc) :
  params req !! "email" = Some e → e ≠ "" →
  first_match (field_is "email" (VStr e)) (usersCollection w) = Some (i, u) →
  authenticated verifyIdToken caller d →
  get d "email" = VStr e →
  let w1 := snd (patch_users_make_admin req w) in
  admin verifyIdToken h caller w1 =
    h (Request (authorization caller) (params caller) (query caller) (body caller) (Some d))
      (add_log (DbFindOne Users) w1).
Proof.
  intros Hp He Hf Ha Hd w1. unfold admin.
  rewrite (verifyFBToken_pass _ _ _ _ Ha), (verifyAdmin_run _ _ d) by done.
  rewrite Hd.
  assert (∃ u', first_match (field_is "email" (VStr e)) (usersCollection w1) = Some (i, u') ∧
                get u' "role" = VStr "admin") as (u' & -> & ->); [|done].
  unfold w1, patch_users_make_admin.
  rewrite (patch_users_role_run "admin" _ _ req w e Hp He), Hf.
  destruct (decide (<["role" := VStr "admin"]> u = u)) as [Heq|Hne];
    cbn [snd usersCollection set_docs add_log].
  - exists u. split; [done|]. unfold get. rewrite <- Heq. by rewrite lookup_insert_eq.
  - exists (<["role" := VStr "admin"]> u). split.
    + apply (first_match_insert _ _ _ _ _ Hf), keeps_email.
      by apply list_find_Some in Hf as (_ & ? & _).
    + unfold get. by rewrite lookup_insert_eq.
Qed.

(** X14, witness. *)
Lemma make_admin_then_gate_witness :
  let req := Sample.request_of [("email", "u@x.com")] [] [] in
  let caller := Sample.with_token "tok-user" (Sample.request_of [] [] []) in
  let w := Sample.with_users [Sample.user "u@x.com" "user"] Sample.empty in
  let w1 := snd (patch_users_make_admin req w) in
  admin Sample.verifyIdToken get_riders_pending caller w1 =
    get_riders_pending
      (Request (authorization caller) (params caller) (query caller) (body caller)
         (Some (list_to_map [("email", VStr "u@x.com")])))
      (add_log (DbFindOne Users) w1).
Proof.
  intros req caller w.
  assert (Ha : authenticated Sample.verifyIdToken caller
                 (list_to_map [("email", VStr "u@x.com")])).
  { exists "Bearer tok-user", "tok-user". repeat split. discriminate. }
  apply (make_admin_then_gate Sample.verifyIdToken get_riders_pending req caller w
           "u@x.com" 0 (Sample.user "u@x.com" "user") _ eq_refl ltac:(discriminate)
           eq_refl Ha eq_refl).
Defined.

(** ** Reading routes *)

Ltac answered :=
  eexists _, _; split; [reflexivity|];
  first [apply same_collections_refl | apply same_collections_log].

Lemma get_riders_with_status_run (st failure : string) (req : request) (w : world) :
  get_riders_with_status st failure req w =
    (Ok (send (RDocs (sort_desc "submittedAt"
                        (List.filter (field_is "status" (VStr st)) (ridersCollection w))))),
     add_log (DbFind Riders) w).
Proof. unfold get_riders_with_status, try_catch. run_bind. by rewrite find_run. Qed.

Lemma get_riders_by_district_run (req : request) (w : world) :
  get_riders_by_district req w =
    if truthy (get (query req) "district")
    then
      let riders :=
        sort_desc "submittedAt"
          (List.filter (fun d => field_is "status" (VStr "active") d
                                 && field_is "district" (get (query req) "district") d)
                       (ridersCollection w)) in
      (Ok (send (RObj [("success", j_true); ("count", JVal (count (length riders)));
                       ("riders", JDocs riders)])),
       add_log (DbFind Riders) w)
    else (Ok (status_send 400 (success_message false "District is required")), w).
Proof.
  unfold get_riders_by_district, try_catch.
  destruct (truthy (get (query req) "district")); cbn [negb]; [|done].
  run_bind. by rewrite find_run.
Qed.

Lemma get_users_search_read_only regex_test : read_only (get_users_search regex_test).
Proof.
  intros req w. unfold get_users_search, try_catch.
  destruct (truthy (get (query req) "query")); cbn [negb]; [|answered].
  destruct (get (query req) "query"); run_bind; cbn; answered.
Qed.

Lemma get_users_role_email_read_only : read_only get_users_role_email.
Proof.
  intros req w. unfold get_users_role_email.
  destruct (truthy (param req "email")); cbn [negb]; [|answered].
  unfold try_catch. run_bind. rewrite findOne_run.
  destruct (first_match _ (docs_of Users w)) as [[i u]|]; answered.
Qed.

Lemma get_payments_read_only : read_only get_payments.
Proof.
  intros req w. destruct (decoded req) as [d|] eqn:Hd.
  - rewrite (get_payments_run req d w Hd).
    destruct (strict_eq _ _); cbn [negb]; [|answered].
    destruct (truthy _); cbn [negb]; answered.
  - unfold get_payments, try_catch, decoded_email. rewrite Hd. run_bind. answered.
Qed.

Lemma get_parcels_id_read_only : read_only get_parcels_id.
Proof.
  intros req w. unfold get_parcels_id, param.
  destruct (params req !! "id") as [id|]; cbn [from_option]; [|answered].
  destruct (truthy (VStr id)); cbn [negb]; [|answered].
  unfold try_catch. run_bind. cbn [ObjectId_new].
  destruct (String.length id =? 24)%nat; [|answered].
  destruct (hex_value 0 id); [|answered].
  cbn [mret M_ret]. run_bind. rewrite findOne_run.
  destruct (first_match _ (docs_of Parcels w)) as [[i p]|]; answered.
Qed.

Lemma get_parcels_run Date_of Array_sort (req : request) (w : world) :
  get_parcels Date_of Array_sort req w =
    let q := condition "user_email" (get (query req) "email")
             ++ condition "payment_status" (get (query req) "payment_status")
             ++ condition "delivery_status" (get (query req) "delivery_status") in
    let sortedParcels :=
      Array_sort (by_creation_date Date_of)
        (sort_desc "creation_date" (List.filter (query_is q) (parcelCollection w))) in
    (Ok (send (RObj [("success", j_true); ("count", JVal (count (length sortedParcels)));
                     ("parcels", JDocs sortedParcels)])),
     add_log (DbFind Parcels) w).
Proof. unfold get_parcels, try_catch. run_bind. by rewrite find_run. Qed.

Lemma index_get_parcels_run Date_of Array_sort (req : request) (w : world) :
  index_get_parcels Date_of Array_sort req w =
    if truthy (get (query req) "email")
    then
      let sortedParcels :=
        Array_sort (by_creation_date Date_of)
          (sort_desc "creation_date"
             (List.filter (field_is "user_email" (get (query req) "email"))
                          (parcelCollection w))) in
      (Ok (send (RObj [("success", j_true); ("count", JVal (count (length sortedParcels)));
                       ("parcels", JDocs sortedParcels)])),
       add_log (DbFind Parcels) w)
    else (Ok (status_send 400 (success_message false "Email is required")), w).
Proof.
  unfold index_get_parcels.
  destruct (truthy (get (query req) "email")); cbn [negb]; [|done].
  unfold try_catch. run_bind. by rewrite find_run.
Qed.

(** X15. The routes that read never write and always answer: whatever the
    request and the stored data, each of the nine listing, lookup and search
    handlers returns a response and leaves the four collections as they
    were. *)
Theorem reading_routes_never_write regex_test Date_of Array_sort :
  read_only get_riders_pending ∧
  read_only get_riders_active ∧
  read_only get_riders_by_district ∧
  read_only (get_users_search regex_test) ∧
  read_only get_users_role_email ∧
  read_only get_payments ∧
  read_only (get_parcels Date_of Array_sort) ∧
  read_only (index_get_parcels Date_of Array_sort) ∧
  read_only get_parcels_id.
Proof.
  repeat split.
  - intros req w. unfold get_riders_pending. rewrite get_riders_with_status_run. answered.
  - intros req w. unfold get_riders_active. rewrite get_riders_with_status_run. answered.
  - intros req w. rewrite get_riders_by_district_run. destruct (truthy _); answered.
  - apply get_users_search_read_only.
  - apply get_users_role_email_read_only.
  - apply get_payments_read_only.
  - intros req w. rewrite get_parcels_run. answered.
  - intros req w. rewrite index_get_parcels_run. destruct (truthy _); answered.
  - apply get_parcels_id_read_only.
Qed.

(** ** Listings *)











(** On that input, evaluated: both parcels, the later one first. *)
Example get_parcels_without_filter :
  let w := Sample.with_parcels
             [Fixture.parcel "u@x.com" "paid" 100; Fixture.parcel "v@x.com" "unpaid" 200]
             Sample.empty in
  fst (get_parcels Fixture.Date_of Fixture.Array_sort (Sample.request_of [] [] []) w) =
    Ok (send (RObj [("success", j_true); ("count", JVal (VNum 2));
                    ("parcels", JDocs [Fixture.parcel "v@x.com" "unpaid" 200;
                                       Fixture.parcel "u@x.com" "paid" 100])])).
Proof. vm_compute; reflexivity. Qed.



(** ** Rider status: what is checked first, and who is promoted *)

(** X20. A status update without a rider id, without a status, or with a
    status other than pending, active and rejected is answered 400 and the
    world is untouched: in particular no user is promoted, whatever email the
    body names. *)
Theorem patch_riders_id_rejects (req : request) (w : world) :
  truthy (param req "id") = false
  ∨ includes validStatus (get (body req) "status") = false →
  ∃ msg,
    patch_riders_id req w = (Ok (status_send 400 (success_message false msg)), w).
Proof.
  intros H. unfold patch_riders_id.
  destruct (truthy (param req "id")); cbn [negb orb]; [|by eexists].
  destruct (truthy (get (body req) "status")); cbn [negb]; [|by eexists].
  destruct H as [H|H]; [done|]. rewrite H. by eexists.
Qed.

(** X20, witness: the status banned, with an email to promote. *)
Lemma patch_riders_id_rejects_witness :
  let w := Sample.with_users [Sample.user "u@x.com" "user"]
             (Sample.with_riders [Sample.rider "pending"] Sample.empty) in
  ∃ msg,
    patch_riders_id
      (Sample.request_of [("id", Sample.oid1)] []
         [("status", VStr "banned"); ("email", VStr "u@x.com")]) w =
    (Ok (status_send 400 (success_message false msg)), w).
Proof. intros w. apply patch_riders_id_rejects. right. reflexivity. Defined.

Lemma ObjectId_new_frame (v : value) (w : world) :
  same_collections w (snd (ObjectId_new v w)) ∧
  log (snd (ObjectId_new v w)) = log w ∧ now (snd (ObjectId_new v w)) = now w.
Proof.
  destruct (ObjectId_new v w) as [[o|e] w1] eqn:Ho.
  - assert (fst (ObjectId_new v w) = Ok o) as Ho' by (by rewrite Ho).
    destruct (ObjectId_new_run _ _ _ Ho') as (n & -> & [Hr|Hr]);
      rewrite Ho in Hr; injection Hr as ->; by repeat split.
  - apply ObjectId_new_throws in Ho as ->. by repeat split.
Qed.

Lemma updateOne_frame (c c' : coll) (p : doc -> bool) (upd : doc) (w : world) :
  c' ≠ c → docs_of c' (snd (updateOne c p upd w)) = docs_of c' w.
Proof.
  intros Hc. rewrite updateOne_run.
  destruct (first_match p (docs_of c w)) as [[i d]|]; [destruct (decide _)|];
    cbn [snd]; by destruct c, c'.
Qed.

Lemma status_write_keeps_users (id status : value) (w : world) :
  usersCollection
    (snd (try_catch
            (oid ← ObjectId_new id;
             result ← updateOne Riders (field_is "_id" oid) (list_to_map [("status", status)]);
             if (modifiedCount result =? 0)%nat
             then mret (status_send 404
                          (success_message false "Rider not found or status unchanged"))
             else mret (send (RObj [("success", j_true);
                                    ("message", JTpl "Rider status updated to " status "")])))
            (fun _ => mret (status_send 500 (success_message false "Internal server error")))
            w)) = usersCollection w.
Proof.
  unfold try_catch. run_bind.
  pose proof (ObjectId_new_frame id w) as ((Hu & _) & _).
  destruct (ObjectId_new id w) as [[o|e] w1]; cbn [snd] in Hu; [|done].
  run_bind.
  pose proof (updateOne_frame Riders Users (field_is "_id" o)
                (list_to_map [("status", status)]) w1 ltac:(done)) as Hf.
  destruct (updateOne Riders _ _ w1) as [[r|e] w2]; cbn [snd docs_of] in Hf; [|cbn; congruence].
  destruct (modifiedCount r =? 0)%nat; cbn; congruence.
Qed.

(** X21. Only the activation of a registered email touches the users
    collection: a status update for any other status, or an activation that
    names a text email no user has (no stored email being an array or an
    object), leaves the users collection as it was; no user is created for
    an unknown email. *)
Theorem patch_riders_id_users_untouched (req : request) (w : world) :
  get (body req) "status" ≠ VStr "active"
  ∨ (∃ e, get (body req) "email" = VStr e ∧ email_free e (usersCollection w) = true) →
  usersCollection (snd (patch_riders_id req w)) = usersCollection w.
Proof.
  intros H. unfold patch_riders_id.
  destruct (negb (truthy (param req "id")) || negb (truthy (get (body req) "status")));
    [done|].
  destruct (negb (includes validStatus (get (body req) "status"))); [done|].
  run_bind.
  destruct (strict_eq (get (body req) "status") (VStr "active")) eqn:Hs.
  - apply strict_eq_text in Hs. destruct H as [H|(e & He & Hfree)]; [done|].
    run_bind. rewrite updateOne_run. cbn [docs_of].
    rewrite He, (email_free_no_match e _ Hfree). cbn [mret M_ret].
    by rewrite status_write_keeps_users.
  - cbn [mret M_ret]. by rewrite status_write_keeps_users.
Qed.

(** X21, witness: a rider is rejected, and a rider is activated for an
    email that is not registered. *)
Lemma patch_riders_id_users_untouched_witness :
  let w := Sample.with_users [Sample.user "u@x.com" "user"]
             (Sample.with_riders [Sample.rider "pending"] Sample.empty) in
  usersCollection
    (snd (patch_riders_id
            (Sample.request_of [("id", Sample.oid1)] []
               [("status", VStr "rejected"); ("email", VStr "u@x.com")]) w))
    = usersCollection w ∧
  usersCollection
    (snd (patch_riders_id
            (Sample.request_of [("id", Sample.oid1)] []
               [("status", VStr "active"); ("email", VStr "nobody@x.com")]) w))
    = usersCollection w.
Proof.
  intros w. split.
  - apply patch_riders_id_users_untouched. left. discriminate.
  - apply patch_riders_id_users_untouched. right. by exists "nobody@x.com".
Defined.

(** ** The payment record *)

Lemma post_payments_insert (req : request) (w : world) :
  truthy (get (body req) "email") = true →
  truthy (get (body req) "transactionId") = true →
  truthy (get (body req) "amount") = true →
  let pay : doc :=
    list_to_map [("_id", VOid (next_oid w)); ("email", get (body req) "email");
                 ("parcelId", bson (get (body req) "parcelId"));
                 ("amount", get (body req) "amount");
                 ("transactionId", get (body req) "transactionId");
                 ("paymentMethod", bson (get (body req) "paymentMethod"));
                 ("payment_status", VStr "paid"); ("date", VDate (now w))] in
  let w1 := set_docs Payments (paymentCollection w ++ [pay])
              (bump_oid (add_log (DbInsertOne Payments) w)) in
  post_payments req w =
    try_catch
      (oid ← ObjectId_new (get (body req) "parcelId");
       parcelResult ← updateOne Parcels (field_is "_id" oid)
                        (list_to_map [("payment_status", VStr "paid")]);
       mret (send (RObj [("success", j_true);
                         ("message", JVal (VStr "Payment saved and parcel updated successfully"));
                         ("paymentId", JVal (VOid (next_oid w)));
                         ("parcelModifiedCount", JVal (count (modifiedCount parcelResult)))])))
      (fun _ => mret (status_send 500 (success_message false "Failed to process payment")))
      w1.
Proof.
  intros He Ht Ha pay w1. unfold post_payments. rewrite He, Ht, Ha. cbn [negb orb].
  unfold try_catch. run_bind. unfold Date_new. run_bind.
  rewrite insertOne_fresh by reflexivity. cbn [docs_of].
  replace (<["_id" := VOid (next_oid w)]> _) with pay; [done|].
  unfold pay.
  transitivity
    (list_to_map [("_id", VOid (next_oid w)); ("email", bson (get (body req) "email"));
                  ("parcelId", bson (get (body req) "parcelId"));
                  ("amount", bson (get (body req) "amount"));
                  ("transactionId", bson (get (body req) "transactionId"));
                  ("paymentMethod", bson (get (body req) "paymentMethod"));
                  ("payment_status", VStr "paid"); ("date", VDate (now w))] : doc);
    [|reflexivity].
  by rewrite (truthy_bson _ He), (truthy_bson _ Ht), (truthy_bson _ Ha).
Qed.

(** X22. The payment is stored before the parcel id is looked at: a
    confirmation whose three required fields are truthy stores exactly one
    payment record, whatever the parcelId and whatever the answer.  The record
    holds the body's email, parcelId, amount, transactionId and paymentMethod,
    the status paid and the time of the request; nothing else of the body is
    stored, and no other collection than parcels can change. *)
Theorem post_payments_record (req : request) (w : world) :
  truthy (get (body req) "email") = true →
  truthy (get (body req) "transactionId") = true →
  truthy (get (body req) "amount") = true →
  let w' := snd (post_payments req w) in
  paymentCollection w' =
    paymentCollection w ++
      [list_to_map [("_id", VOid (next_oid w)); ("email", get (body req) "email");
                    ("parcelId", bson (get (body req) "parcelId"));
                    ("amount", get (body req) "amount");
                    ("transactionId", get (body req) "transactionId");
                    ("paymentMethod", bson (get (body req) "paymentMethod"));
                    ("payment_status", VStr "paid"); ("date", VDate (now w))]] ∧
  usersCollection w' = usersCollection w ∧
  ridersCollection w' = ridersCollection w.
Proof.
  intros He Ht Ha w'.
  assert (∃ r w2, post_payments req w = (r, w2) ∧
            paymentCollection w2 =
              paymentCollection w ++
                [list_to_map [("_id", VOid (next_oid w)); ("email", get (body req) "email");
                              ("parcelId", bson (get (body req) "parcelId"));
                              ("amount", get (body req) "amount");
                              ("transactionId", get (body req) "transactionId");
                              ("paymentMethod", bson (get (body req) "paymentMethod"));
                              ("payment_status", VStr "paid"); ("date", VDate (now w))]] ∧
            usersCollection w2 = usersCollection w ∧
            ridersCollection w2 = ridersCollection w) as (r & w2 & Hrun & H).
  { rewrite (post_payments_insert req w He Ht Ha). cbn zeta.
    set (w1 := set_docs Payments _ _).
    unfold try_catch. run_bind.
    pose proof (ObjectId_new_frame (get (body req) "parcelId") w1) as ((Hu & _ & Hp & Hr) & _).
    destruct (ObjectId_new (get (body req) "parcelId") w1) as [[o|e] w2];
      cbn [snd] in Hu, Hp, Hr.
    2:{ eexists _, _. split; [reflexivity|]. by rewrite Hu, Hp, Hr. }
    run_bind.
    pose proof (updateOne_frame Parcels Payments (field_is "_id" o)
                  (list_to_map [("payment_status", VStr "paid")]) w2 ltac:(done)) as Hfp.
    pose proof (updateOne_frame Parcels Users (field_is "_id" o)
                  (list_to_map [("payment_status", VStr "paid")]) w2 ltac:(done)) as Hfu.
    pose proof (updateOne_frame Parcels Riders (field_is "_id" o)
                  (list_to_map [("payment_status", VStr "paid")]) w2 ltac:(done)) as Hfr.
    destruct (updateOne Parcels _ _ w2) as [[r|e] w3]; cbn [snd docs_of] in Hfp, Hfu, Hfr;
      eexists _, _; (split; [reflexivity|]); by rewrite Hfp, Hfu, Hfr, Hu, Hp, Hr. }
  unfold w'. by rewrite Hrun.
Qed.

(** X22, witness. *)
Lemma post_payments_record_witness :
  let req := Sample.request_of [] []
               [("email", VStr "u@x.com"); ("transactionId", VStr "tx1"); ("amount", VNum 500);
                ("payment_status", VStr "refunded"); ("date", VStr "long ago")] in
  let w' := snd (post_payments req Sample.empty) in
  paymentCollection w' =
    paymentCollection Sample.empty ++
      [list_to_map [("_id", VOid (next_oid Sample.empty)); ("email", get (body req) "email");
                    ("parcelId", bson (get (body req) "parcelId"));
                    ("amount", get (body req) "amount");
                    ("transactionId", get (body req) "transactionId");
                    ("paymentMethod", bson (get (body req) "paymentMethod"));
                    ("payment_status", VStr "paid"); ("date", VDate (now Sample.empty))]] ∧
  usersCollection w' = usersCollection Sample.empty ∧
  ridersCollection w' = ridersCollection Sample.empty.
Proof. intros req. apply (post_payments_record req Sample.empty); reflexivity. Defined.

(** X23. When the parcelId is a text that is not the text of an ObjectId, a
    confirmation with its three required fields is answered 500 although its
    payment record has been stored; the parcel update is never issued and the
    parcels are as before. *)
Theorem post_payments_malformed_id (req : request) (w : world) (id : string) :
  truthy (get (body req) "email") = true →
  truthy (get (body req) "transactionId") = true →
  truthy (get (body req) "amount") = true →
  get (body req) "parcelId" = VStr id →
  unconstructible (VStr id) →
  ∃ w',
    post_payments req w =
      (Ok (status_send 500 (success_message false "Failed to process payment")), w') ∧
    length (paymentCollection w') = S (length (paymentCollection w)) ∧
    parcelCollection w' = parcelCollection w ∧
    log w' = log w ++ [DbInsertOne Payments].
Proof.
  intros He Ht Ha Hid Hun. rewrite (post_payments_insert req w He Ht Ha). cbn zeta.
  set (w1 := set_docs Payments _ _).
  unfold try_catch. run_bind. rewrite Hid.
  destruct (malformed_id_throws id w1 Hun) as [e ->].
  eexists. split; [reflexivity|]. cbn. rewrite length_app. cbn. split; [lia|done].
Qed.

(** X23, witness. *)
Lemma post_payments_malformed_id_witness :
  let req := Sample.request_of [] []
               [("email", VStr "u@x.com"); ("transactionId", VStr "tx1"); ("amount", VNum 500);
                ("parcelId", VStr "not-an-id")] in
  ∃ w',
    post_payments req Sample.empty =
      (Ok (status_send 500 (success_message false "Failed to process payment")), w') ∧
    length (paymentCollection w') = S (length (paymentCollection Sample.empty)) ∧
    parcelCollection w' = parcelCollection Sample.empty ∧
    log w' = log Sample.empty ++ [DbInsertOne Payments].
Proof.
  intros req.
  apply (post_payments_malformed_id req Sample.empty "not-an-id"); try reflexivity.
  intros w0. by exists BSONError.
Defined.

(** ** A body that brings its own _id *)

Lemma insertOne_duplicate (c : coll) (d : doc) (w : world) :
  bson (get d "_id") ≠ VNull →
  has_id (get d "_id") (docs_of c w) = true →
  insertOne c d w = (Throw DuplicateKey, add_log (DbInsertOne c) w).
Proof.
  intros Hn Hd. unfold insertOne. run_bind. unfold record. run_bind. unfold read.
  rewrite docs_of_add_log.
  destruct (get d "_id"); try done; by rewrite Hd.
Qed.

(** X24. A body whose _id is already in the collection: the parcel creation
    catches the failed insert and answers 500, the rider application has no
    catch and raises without answering; neither stores anything. *)
Theorem duplicate_id_parcel_and_rider (req : request) (w : world) :
  bson (get (body req) "_id") ≠ VNull →
  (required_present (body req) = true →
   has_id (get (body req) "_id") (parcelCollection w) = true →
     post_parcels req w =
       (Ok (status_send 500 (success_message false "Failed to add parcel")),
        add_log (DbInsertOne Parcels) w)) ∧
  (has_id (get (body req) "_id") (ridersCollection w) = true →
     post_riders req w = (Throw DuplicateKey, add_log (DbInsertOne Riders) w)).
Proof.
  intros Hn. split.
  - intros Hp Hd. unfold post_parcels. rewrite post_parcels_guard, Hp. cbn [negb].
    unfold try_catch. run_bind. by rewrite insertOne_duplicate.
  - intros Hd. unfold post_riders. run_bind. by rewrite insertOne_duplicate.
Qed.

(** X24, witness. *)
Lemma duplicate_id_parcel_and_rider_witness :
  let req := Sample.request_of [] [] (("_id", Sample.id1) :: Fixture.new_parcel) in
  let wp := Sample.with_parcels [Sample.parcel_assigned] Sample.empty in
  let wr := Sample.with_riders [Sample.rider "pending"] Sample.empty in
  post_parcels req wp =
    (Ok (status_send 500 (success_message false "Failed to add parcel")),
     add_log (DbInsertOne Parcels) wp) ∧
  post_riders req wr = (Throw DuplicateKey, add_log (DbInsertOne Riders) wr).
Proof.
  intros req wp wr.
  assert (Hn : bson (get (body req) "_id") ≠ VNull) by discriminate.
  split.
  - apply (proj1 (duplicate_id_parcel_and_rider req wp Hn)); reflexivity.
  - apply (proj2 (duplicate_id_parcel_and_rider req wr Hn)); reflexivity.
Defined.

(** ** Validation comes first *)

Ltac case_run H :=
  unfold try_catch, find, findOne, updateOne, insertOne, deleteOne, decoded_email,
    mbind, M_bind, mret, M_ret, throw, record, read, write, ObjectId_new, fresh_oid,
    Date_new in H;
  repeat (case_match; simplify_eq/=; try done).

(** X25. In every handler the validation precedes the database: whenever a
    handler answers 400, the world is exactly as it was before the request. *)
Theorem handlers_validate_first regex_test Date_of Array_sort :
  validates_first post_users ∧
  validates_first post_parcels ∧
  validates_first post_payments ∧
  validates_first patch_riders_id ∧
  validates_first patch_parcels_assign_id ∧
  validates_first patch_users_make_admin ∧
  validates_first patch_users_remove_admin ∧
  validates_first get_riders_by_district ∧
  validates_first (get_users_search regex_test) ∧
  validates_first get_users_role_email ∧
  validates_first get_payments ∧
  validates_first (index_get_parcels Date_of Array_sort) ∧
  validates_first get_parcels_id ∧
  validates_first delete_parcels_id.
Proof.
  repeat split; intros req w resp w' H Hs.
  - unfold post_users in H. case_run H.
  - unfold post_parcels in H. case_run H.
  - unfold post_payments in H. case_run H.
  - unfold patch_riders_id in H. case_run H.
  - unfold patch_parcels_assign_id in H. case_run H.
  - unfold patch_users_make_admin, patch_users_role in H. case_run H.
  - unfold patch_users_remove_admin, patch_users_role in H. case_run H.
  - unfold get_riders_by_district in H. case_run H.
  - unfold get_users_search in H. case_run H.
  - unfold get_users_role_email in H. case_run H.
  - unfold get_payments in H. case_run H.
  - unfold index_get_parcels in H. case_run H.
  - unfold get_parcels_id in H. case_run H.
  - unfold delete_parcels_id in H. case_run H.
Qed.

(** ** The users collection under every route *)

Lemma keeps_bind {A B} (m : M A) (k : A -> M B) :
  keeps_users m → (∀ a, keeps_users (k a)) → keeps_users (m ≫= k).
Proof.
  intros Hm Hk w. unfold mbind, M_bind. specialize (Hm w).
  destruct (m w) as [[a|e] w1]; cbn [snd] in *; [by rewrite Hk|done].
Qed.

Lemma keeps_try {A} (m : M A) (h : exn -> M A) :
  keeps_users m → (∀ e, keeps_users (h e)) → keeps_users (try_catch m h).
Proof.
  intros Hm Hh w. unfold try_catch. specialize (Hm w).
  destruct (m w) as [[a|e] w1]; cbn [snd] in *; [done|by rewrite Hh].
Qed.

Lemma keeps_ret {A} (a : A) : keeps_users (mret a).
Proof. by intros w. Qed.

Lemma keeps_throw {A} (e : exn) : keeps_users (@throw A e).
Proof. by intros w. Qed.

Lemma keeps_record (e : event) : keeps_users (record e).
Proof. by intros w. Qed.

Lemma keeps_Date : keeps_users Date_new.
Proof. by intros w. Qed.

Lemma keeps_ObjectId (v : value) : keeps_users (ObjectId_new v).
Proof. intros w. by destruct (ObjectId_new_frame v w) as ((? & _) & _). Qed.

Lemma keeps_find c p post : keeps_users (find c p post).
Proof. intros w. by rewrite find_run. Qed.

Lemma keeps_findOne c p : keeps_users (findOne c p).
Proof. intros w. by rewrite findOne_run. Qed.

Lemma keeps_updateOne c p upd : c ≠ Users → keeps_users (updateOne c p upd).
Proof. intros Hc w. by apply (updateOne_frame c Users). Qed.

Lemma keeps_deleteOne c p : c ≠ Users → keeps_users (deleteOne c p).
Proof.
  intros Hc w. rewrite deleteOne_run.
  destruct (first_match p (docs_of c w)) as [[i d]|]; [|done]. by destruct c.
Qed.

Lemma keeps_insertOne c d : c ≠ Users → keeps_users (insertOne c d).
Proof.
  intros Hc w. unfold insertOne, mbind, M_bind, record, read, write, fresh_oid, throw,
    mret, M_ret.
  repeat case_match; simplify_eq/=; by destruct c.
Qed.

Ltac keeps :=
  repeat first
    [ apply keeps_ret | apply keeps_throw | apply keeps_record | apply keeps_Date
    | apply keeps_ObjectId | apply keeps_find | apply keeps_findOne
    | apply keeps_updateOne; discriminate | apply keeps_deleteOne; discriminate
    | apply keeps_insertOne; discriminate
    | apply keeps_bind; [|intros ?] | apply keeps_try; [|intros ?]
    | progress cbn zeta | case_match ].

Lemma role_step_unique (l l' : list doc) : role_step l l' → unique_emails l → unique_emails l'.
Proof.
  intros [->|(i & u & v & Hi & ->)] Hu; [done|].
  assert (∀ j d e, <[i := <["role" := v]> u]> l !! j = Some d → d !! "email" = Some e →
            ∃ d', l !! j = Some d' ∧ d' !! "email" = Some e) as H.
  { intros j d e Hj He. destruct (decide (j = i)) as [->|Hne].
    - rewrite list_lookup_insert_eq in Hj by (by eapply lookup_lt_Some).
      injection Hj as <-. rewrite lookup_insert_ne in He by done. eauto.
    - rewrite list_lookup_insert_ne in Hj by done. eauto. }
  intros j1 j2 d1 d2 e H1 H2 He1 He2.
  destruct (H _ _ _ H1 He1) as (d1' & ? & ?), (H _ _ _ H2 He2) as (d2' & ? & ?). eauto.
Qed.

Lemma role_write_step (p : doc -> bool) (r : value) (w : world) :
  role_step (usersCollection w)
    (usersCollection (snd (updateOne Users p (list_to_map [("role", r)]) w))).
Proof.
  rewrite updateOne_run. cbn [docs_of].
  destruct (first_match p (usersCollection w)) as [[i u]|] eqn:Hf; [|by left].
  destruct (decide _); [by left|]. right. exists i, u, (bson r).
  apply list_find_Some in Hf as (Hi & _). split; [done|].
  cbn [snd set_docs usersCollection]. by rewrite set_one_field.
Qed.

Lemma keeps_step {A} (m : M A) (w : world) :
  keeps_users m → role_step (usersCollection w) (usersCollection (snd (m w))).
Proof. intros H. left. apply H. Qed.

Lemma role_step_then {A} (m : M A) (w : world) (l : list doc) :
  keeps_users m → role_step l (usersCollection w) →
  role_step l (usersCollection (snd (m w))).
Proof. intros H Hs. by rewrite H. Qed.

Lemma patch_riders_id_step (req : request) (w : world) :
  role_step (usersCollection w) (usersCollection (snd (patch_riders_id req w))).
Proof.
  unfold patch_riders_id.
  destruct (negb (truthy (param req "id")) || negb (truthy (get (body req) "status")));
    [by left|].
  destruct (negb (includes validStatus (get (body req) "status"))); [by left|].
  run_bind.
  destruct (strict_eq (get (body req) "status") (VStr "active")).
  - run_bind.
    pose proof (role_write_step (field_is "email" (get (body req) "email")) (VStr "rider") w)
      as Hs.
    destruct (updateOne Users _ _ w) as [[r|e] w1]; cbn [snd] in Hs; [|done].
    cbn [mret M_ret]. by rewrite status_write_keeps_users.
  - cbn [mret M_ret]. rewrite status_write_keeps_users. by left.
Qed.

Lemma patch_users_role_step role after notfound (req : request) (w : world) :
  role_step (usersCollection w)
    (usersCollection (snd (patch_users_role role after notfound req w))).
Proof.
  unfold patch_users_role.
  destruct (negb (truthy (param req "email"))); [by left|].
  unfold try_catch. run_bind.
  pose proof (role_write_step (field_is "email" (param req "email")) (VStr role) w) as Hs.
  destruct (updateOne Users _ _ w) as [[r|e] w1]; cbn [snd] in Hs; [|done].
  by destruct (modifiedCount r =? 0)%nat.
Qed.

Lemma verifyFBToken_step verifyIdToken (next : handler) (l : list doc) :
  (∀ req w, usersCollection w = l → role_step l (usersCollection (snd (next req w)))) →
  ∀ req w, usersCollection w = l →
    role_step l (usersCollection (snd (verifyFBToken verifyIdToken next req w))).
Proof.
  intros Hn req w Hw. unfold verifyFBToken.
  repeat case_match; try (left; by rewrite <- Hw). by apply Hn.
Qed.

Lemma verifyAdmin_step (next : handler) (l : list doc) :
  (∀ req w, usersCollection w = l → role_step l (usersCollection (snd (next req w)))) →
  ∀ req w, usersCollection w = l →
    role_step l (usersCollection (snd (verifyAdmin next req w))).
Proof.
  intros Hn req w Hw. destruct (decoded req) as [d|] eqn:Hd.
  - rewrite (verifyAdmin_run next req d w Hd).
    destruct (first_match _ (usersCollection w)) as [[i u]|];
      [destruct (strict_eq _ _)|]; try (left; by rewrite <- Hw).
    by apply Hn.
  - unfold verifyAdmin, decoded_email. rewrite Hd. left. by rewrite <- Hw.
Qed.

Lemma keeps_handler_step (h : handler) (l : list doc) :
  (∀ req, keeps_users (h req)) →
  ∀ req w, usersCollection w = l → role_step l (usersCollection (snd (h req w))).
Proof. intros H req w <-. left. apply H. Qed.

Lemma role_step_scalar (l l' : list doc) : role_step l l' → scalar_emails l → scalar_emails l'.
Proof.
  intros [->|(i & u & v & Hi & ->)] Hs; [done|].
  unfold scalar_emails in *. rewrite Forall_lookup in Hs. apply Forall_lookup.
  intros j d Hj. destruct (decide (j = i)) as [->|Hne].
  - rewrite list_lookup_insert_eq in Hj by (by eapply lookup_lt_Some).
    injection Hj as <-. unfold get. rewrite lookup_insert_ne by done. by apply (Hs i u).
  - rewrite list_lookup_insert_ne in Hj by done. eauto.
Qed.

Lemma post_users_scalar (req : request) (w : world) :
  scalar (get (body req) "email") = true →
  scalar_emails (usersCollection w) →
  scalar_emails (usersCollection (snd (post_users req w))).
Proof.
  intros Hs Hl.
  destruct (truthy (get (body req) "email")) eqn:He.
  - destruct (first_match (field_is "email" (get (body req) "email")) (usersCollection w))
      as [[i u]|] eqn:Hf.
    + by rewrite (post_users_taken req w i u He Hf).
    + rewrite (post_users_new req w He Hf). cbn [snd set_docs usersCollection].
      apply Forall_app. split; [done|]. constructor; [|constructor]. exact Hs.
  - by rewrite (post_users_missing req w He).
Qed.

(** Every route but the registration leaves the users collection as it was,
    or gives one user a new role. *)
Lemma server_role_step verifyIdToken regex_test Date_of Array_sort
    (e : endpoint) (req : request) (w : world) :
  e ≠ POST_users →
  role_step (usersCollection w)
    (usersCollection (snd (server verifyIdToken regex_test Date_of Array_sort e req w))).
Proof.
  intros He.
  destruct e as [r| | | |]; cbn [server]; [| done | | |].
  - destruct r; cbn [app]; unfold admin;
      try (apply verifyFBToken_step; [|done]; try (apply verifyAdmin_step));
      try (intros rq w0 <-).
    + apply keeps_step. unfold post_parcels. keeps.
    + apply keeps_step. unfold post_riders. keeps.
    + apply keeps_step. unfold post_payments. keeps.
    + apply keeps_step. unfold get_riders_pending, get_riders_with_status. keeps.
    + apply keeps_step. unfold get_riders_active, get_riders_with_status. keeps.
    + apply patch_riders_id_step.
    + apply keeps_step. unfold get_riders_by_district. keeps.
    + apply keeps_step. unfold patch_parcels_assign_id. keeps.
    + apply keeps_step. unfold get_users_search. keeps.
    + apply patch_users_role_step.
    + apply patch_users_role_step.
    + apply keeps_step. unfold get_users_role_email. keeps.
    + apply keeps_step. unfold get_payments, decoded_email. keeps.
  - apply verifyFBToken_step; [|done]. intros rq w0 <-.
    apply keeps_step. unfold get_parcels. keeps.
  - apply verifyFBToken_step; [|done]. intros rq w0 <-.
    apply keeps_step. unfold get_parcels_id. keeps.
  - apply keeps_step. unfold delete_parcels_id. keeps.
Qed.

(** X26. Requests served in turn keep the emails of the users collection
    unique.  Take any sequence of requests to any routes of the server, each
    answered before the next is taken up, in which no request body carries an
    array or an object as its email, and start it where no stored email is an
    array or an object: if no two stored users share an email before the
    sequence, none do after it.  (Two registrations in flight together are
    another matter, taken up below.) *)
Theorem server_keeps_emails_unique verifyIdToken regex_test Date_of Array_sort
    (rs : list (endpoint * request)) (w : world) :
  Forall (fun r : endpoint * request => scalar (get (body (snd r)) "email") = true) rs →
  scalar_emails (usersCollection w) →
  unique_emails (usersCollection w) →
  unique_emails
    (usersCollection (serve verifyIdToken regex_test Date_of Array_sort rs w)).
Proof.
  intros Hrs. revert w.
  induction Hrs as [|[e req] rs Hr _ IH]; intros w Hs Hu; [done|].
  cbn [serve]. cbn [snd] in Hr.
  assert (e = POST_users ∨ e ≠ POST_users) as [->|He]
    by (destruct e; (by left) || (by right)).
  - apply IH; cbn [server].
    + by apply post_users_scalar.
    + by apply post_users_unique.
  - pose proof (server_role_step verifyIdToken regex_test Date_of Array_sort e req w He)
      as Hstep.
    apply IH.
    + by apply (role_step_scalar (usersCollection w)).
    + by apply (role_step_unique (usersCollection w)).
Qed.

(** X26, witness: a registration, the same registration again, and an admin
    who activates a rider. *)
Lemma server_keeps_emails_unique_witness :
  let w := Sample.with_users [Sample.user "root@x.com" "admin"; Sample.user "u@x.com" "user"]
             (Sample.with_riders [Sample.rider "pending"] Sample.empty) in
  let register := Sample.request_of [] [] [("email", VStr "n@x.com")] in
  let activate := Sample.with_token "tok-admin"
                    (Sample.request_of [("id", Sample.oid1)] []
                       [("status", VStr "active"); ("email", VStr "u@x.com")]) in
  unique_emails
    (usersCollection
       (serve Sample.verifyIdToken dot_regex Fixture.Date_of Fixture.Array_sort
          [(POST_users, register); (POST_users, register); (Listed PATCH_riders_id, activate)]
          w)).
Proof.
  intros w register activate. apply server_keeps_emails_unique.
  - repeat constructor.
  - repeat constructor.
  - intros [|[|i]] [|[|j]] di dj v Hi Hj Hei Hej; try done;
      try (by destruct i); try (by destruct j);
      injection Hi as <-; injection Hj as <-; vm_compute in Hei, Hej; congruence.
Defined.

(** ** Two registrations in flight together *)

(** The two parts, one after the other, are the handler. *)
Lemma post_users_in_two_parts (req : request) (w : world) :
  truthy (get (body req) "email") = true →
  post_users req w =
    (existingUser ← post_users_lookup req; post_users_store existingUser req) w.
Proof.
  intros He. unfold post_users, post_users_lookup, post_users_store. rewrite He.
  cbn [negb]. unfold try_catch, mbind, M_bind. rewrite findOne_run.
  by destruct (first_match _ (docs_of Users w)) as [[i u]|].
Qed.

Lemma post_users_store_new (req : request) (w : world) :
  truthy (get (body req) "email") = true →
  post_users_store None req w =
    (Ok (status_send 201 (RObj [("success", j_true);
                                ("message", JVal (VStr "User inserted successfully"));
                                ("insertedId", JVal (VOid (next_oid w)))])),
     set_docs Users
       (usersCollection w ++
          [list_to_map [("_id", VOid (next_oid w)); ("email", get (body req) "email");
                        ("role", bson (get (body req) "role"));
                        ("created_at", bson (get (body req) "created_at"));
                        ("last_login", bson (get (body req) "last_login"))]])
       (bump_oid (add_log (DbInsertOne Users) w))).
Proof.
  intros He. unfold post_users_store, try_catch. run_bind.
  rewrite insertOne_fresh by reflexivity. cbn.
  rewrite <- (truthy_bson _ He) at 2. reflexivity.
Qed.

(** X28. The uniqueness of emails rests on the requests being served in
    turn.  When two registrations of the same new email (a non-empty text
    that no stored user has) are in flight together, so that both lookups
    are answered before either handler stores, both are answered 201 and
    both users are stored: the collection then holds two users with that
    email. *)
Theorem post_users_overlapped_stores_both (req1 req2 : request) (w : world) (e : string) :
  get (body req1) "email" = VStr e → get (body req2) "email" = VStr e → e ≠ "" →
  email_free e (usersCollection w) = true →
  ∃ u1 u2 w',
    post_users_overlapped req1 req2 w =
      (Ok (status_send 201 (RObj [("success", j_true);
                                  ("message", JVal (VStr "User inserted successfully"));
                                  ("insertedId", JVal (VOid (next_oid w)))]),
           status_send 201 (RObj [("success", j_true);
                                  ("message", JVal (VStr "User inserted successfully"));
                                  ("insertedId", JVal (VOid (N.succ (next_oid w))))])), w') ∧
    usersCollection w' = usersCollection w ++ [u1; u2] ∧
    u1 !! "email" = Some (VStr e) ∧ u2 !! "email" = Some (VStr e) ∧
    ¬ unique_emails (usersCollection w').
Proof.
  intros He1 He2 Hne Hfree.
  assert (truthy (get (body req1) "email") = true) as Ht1
    by (rewrite He1; by apply text_truthy).
  assert (truthy (get (body req2) "email") = true) as Ht2
    by (rewrite He2; by apply text_truthy).
  unfold post_users_overlapped, post_users_lookup.
  run_bind. rewrite findOne_run. cbn [docs_of].
  rewrite He1, (email_free_no_match e _ Hfree). cbn [fmap option_fmap option_map].
  run_bind. rewrite findOne_run. cbn [docs_of usersCollection add_log].
  rewrite He2, (email_free_no_match e _ Hfree). cbn [fmap option_fmap option_map].
  run_bind. rewrite (post_users_store_new req1 _ Ht1).
  run_bind. rewrite (post_users_store_new req2 _ Ht2).
  rewrite He1, He2.
  eexists _, _, _. split; [reflexivity|].
  cbn [usersCollection set_docs add_log bump_oid next_oid].
  split; [by rewrite <- app_assoc|]. split; [done|]. split; [done|].
  intros Hu.
  assert (length (usersCollection w) = S (length (usersCollection w))) as Hlen; [|lia].
  eapply (Hu _ _ _ _ (VStr e)).
  - rewrite lookup_app_l by (rewrite length_app; cbn; lia).
    rewrite lookup_app_r by lia. by rewrite Nat.sub_diag.
  - rewrite lookup_app_r by (rewrite length_app; cbn; lia).
    rewrite length_app. cbn [length].
    by replace (S (length (usersCollection w)) - (length (usersCollection w) + 1)) with 0
      by lia.
  - done.
  - done.
Qed.

(** X28, witness: the same registration twice, on an empty collection. *)
Lemma post_users_overlapped_stores_both_witness :
  let req := Sample.request_of [] [] [("email", VStr "n@x.com"); ("role", VStr "user")] in
  ∃ u1 u2 w',
    post_users_overlapped req req Sample.empty =
      (Ok (status_send 201 (RObj [("success", j_true);
                                  ("message", JVal (VStr "User inserted successfully"));
                                  ("insertedId", JVal (VOid 1))]),
           status_send 201 (RObj [("success", j_true);
                                  ("message", JVal (VStr "User inserted successfully"));
                                  ("insertedId", JVal (VOid 2))])), w') ∧
    usersCollection w' = [u1; u2] ∧
    u1 !! "email" = Some (VStr "n@x.com") ∧ u2 !! "email" = Some (VStr "n@x.com") ∧
    ¬ unique_emails (usersCollection w').
Proof.
  intros req.
  apply (post_users_overlapped_stores_both req req Sample.empty "n@x.com");
    [reflexivity | reflexivity | discriminate | reflexivity].
Defined.

(** Served in turn, the second of the two is refused. *)
Example registrations_in_turn :
  let req := Sample.request_of [] [] [("email", VStr "n@x.com"); ("role", VStr "user")] in
  fst (post_users req (snd (post_users req Sample.empty))) =
    Ok (status_send 409 (success_message false "Email already exists")).
Proof. vm_compute. reflexivity. Qed.

(** ** Payment and parcel together *)

Lemma keeps_id (p : doc) (o : N) (k : string) (v : value) :
  k ≠ "_id" → field_is "_id" (VOid o) p = true →
  field_is "_id" (VOid o) (<[k := v]> p) = true.
Proof. intros Hk. unfold field_is. cbn. by rewrite lookup_insert_ne. Qed.

Lemma post_payments_known_parcel (req : request) (w : world) (id : string) (o : N)
    (i : nat) (p : doc) :
  truthy (get (body req) "email") = true →
  truthy (get (body req) "transactionId") = true →
  truthy (get (body req) "amount") = true →
  get (body req) "parcelId" = VStr id →
  String.length id = 24 → hex_value 0 id = Some o →
  first_match (field_is "_id" (VOid o)) (parcelCollection w) = Some (i, p) →
  ∃ w',
    post_payments req w =
      (Ok (send (RObj [("success", j_true);
                       ("message", JVal (VStr "Payment saved and parcel updated successfully"));
                       ("paymentId", JVal (VOid (next_oid w)));
                       ("parcelModifiedCount",
                        JVal (count (if decide (<["payment_status" := VStr "paid"]> p = p)
                                     then 0 else 1)))])), w') ∧
    parcelCollection w' = <[i := <["payment_status" := VStr "paid"]> p]> (parcelCollection w) ∧
    length (paymentCollection w') = S (length (paymentCollection w)).
Proof.
  intros He Ht Ha Hid Hlen Hhex Hf. rewrite (post_payments_insert req w He Ht Ha). cbn zeta.
  set (w1 := set_docs Payments _ _).
  unfold try_catch. run_bind. rewrite Hid, (ObjectId_new_text id o) by done.
  run_bind. rewrite updateOne_run. cbn [docs_of].
  change (parcelCollection w1) with (parcelCollection w). rewrite Hf, set_one_field.
  cbn [bson]. pose proof Hf as (Hi & _)%list_find_Some.
  destruct (decide (<["payment_status" := VStr "paid"]> p = p)) as [Heq|Hne].
  - eexists. split; [reflexivity|]. cbn. rewrite Heq, list_insert_id by done.
    split; [done|]. rewrite length_app. cbn. lia.
  - eexists. split; [reflexivity|]. cbn. split; [done|]. rewrite length_app. cbn. lia.
Qed.

(** X27. Confirm, then fetch: after a confirmation that names a stored parcel
    by the text of its id, fetching that parcel answers 200 with the parcel as
    it was, its payment_status now paid. *)
Theorem post_payments_then_get (req asked : request) (w : world) (id : string) (o : N)
    (i : nat) (p : doc) :
  truthy (get (body req) "email") = true →
  truthy (get (body req) "transactionId") = true →
  truthy (get (body req) "amount") = true →
  get (body req) "parcelId" = VStr id →
  String.length id = 24 → hex_value 0 id = Some o →
  first_match (field_is "_id" (VOid o)) (parcelCollection w) = Some (i, p) →
  params asked !! "id" = Some id →
  fst (get_parcels_id asked (snd (post_payments req w))) =
    Ok (send (RDoc (<["payment_status" := VStr "paid"]> p))).
Proof.
  intros He Ht Ha Hid Hlen Hhex Hf Hp.
  destruct (post_payments_known_parcel req w id o i p He Ht Ha Hid Hlen Hhex Hf)
    as (w' & -> & Hpc & _).
  cbn [snd]. rewrite (get_parcels_id_run asked w' id o) by done. rewrite Hpc.
  assert (Hk : field_is "_id" (VOid o) (<["payment_status" := VStr "paid"]> p) = true).
  { apply keeps_id; [done|]. by apply list_find_Some in Hf as (_ & ? & _). }
  by rewrite (first_match_insert _ _ _ _ _ Hf Hk).
Qed.

(** X27, witness. *)
Lemma post_payments_then_get_witness :
  let req := Sample.request_of [] []
               [("email", VStr "u@x.com"); ("transactionId", VStr "tx1"); ("amount", VNum 500);
                ("parcelId", VStr Sample.oid1)] in
  let asked := Sample.request_of [("id", Sample.oid1)] [] [] in
  let w := Sample.with_parcels [Sample.parcel_assigned] Sample.empty in
  fst (get_parcels_id asked (snd (post_payments req w))) =
    Ok (send (RDoc (<["payment_status" := VStr "paid"]> Sample.parcel_assigned))).
Proof.
  intros req asked w.
  apply (post_payments_then_get req asked w Sample.oid1 31170871365409138629861165273%N 0
           Sample.parcel_assigned); reflexivity.
Defined.

(** X3. A confirmation is not idempotent: for a parcel that is paid
    already, a further confirmation is answered 200 with parcelModifiedCount
    0, leaves the parcels as they are, and still stores one more payment
    record for the same parcel. *)
Theorem post_payments_again (req : request) (w : world) (id : string) (o : N)
    (i : nat) (p : doc) :
  truthy (get (body req) "email") = true →
  truthy (get (body req) "transactionId") = true →
  truthy (get (body req) "amount") = true →
  get (body req) "parcelId" = VStr id →
  String.length id = 24 → hex_value 0 id = Some o →
  first_match (field_is "_id" (VOid o)) (parcelCollection w) = Some (i, p) →
  p !! "payment_status" = Some (VStr "paid") →
  ∃ resp w',
    post_payments req w = (Ok resp, w') ∧
    status resp = 200 ∧
    field "parcelModifiedCount" resp = Some (JVal (VNum 0)) ∧
    parcelCollection w' = parcelCollection w ∧
    length (paymentCollection w') = S (length (paymentCollection w)).
Proof.
  intros He Ht Ha Hid Hlen Hhex Hf Hpaid.
  destruct (post_payments_known_parcel req w id o i p He Ht Ha Hid Hlen Hhex Hf)
    as (w' & Hrun & Hpc & Hlen').
  rewrite Hrun. rewrite decide_True in * by (by apply insert_id).
  eexists _, _. split; [reflexivity|]. split; [done|]. split; [done|]. split; [|done].
  rewrite Hpc, insert_id by done. apply list_insert_id.
  by apply list_find_Some in Hf as (? & _).
Qed.

(** X3, witness: the same confirmation sent twice. *)
Lemma post_payments_again_witness :
  let req := Sample.request_of [] []
               [("email", VStr "u@x.com"); ("transactionId", VStr "tx1"); ("amount", VNum 500);
                ("parcelId", VStr Sample.oid1)] in
  let w := snd (post_payments req (Sample.with_parcels [Sample.parcel_assigned] Sample.empty)) in
  ∃ resp w',
    post_payments req w = (Ok resp, w') ∧
    status resp = 200 ∧
    field "parcelModifiedCount" resp = Some (JVal (VNum 0)) ∧
    parcelCollection w' = parcelCollection w ∧
    length (paymentCollection w') = S (length (paymentCollection w)).
Proof.
  intros req w.
  apply (post_payments_again req w Sample.oid1 31170871365409138629861165273%N 0
           (<["payment_status" := VStr "paid"]> Sample.parcel_assigned));
    try reflexivity; vm_compute; reflexivity.
Defined.

(** X25, witness: an assignment without a rider id. *)
Lemma handlers_validate_first_witness :
  let req := Sample.request_of [("id", Sample.oid1)] [] [("riderName", VStr "Bela")] in
  let w := Sample.with_parcels [Sample.parcel_assigned] Sample.empty in
  snd (patch_parcels_assign_id req w) = w.
Proof.
  intros req w.
  pose proof (handlers_validate_first dot_regex Fixture.Date_of Fixture.Array_sort)
    as (_ & _ & _ & _ & H & _).
  apply (H req w
           (status_send 400 (success_message false "Parcel ID and Rider ID are required"))).
  - reflexivity.
  - reflexivity.
Defined.
